(** * AI_TrainMax: the scripted corridor simulation and the map overlay

    A shallow embedding of
    - [src/BspAkaltaraSimulation.tsx]: the piecewise time-to-position
      function [getPositionKm], its helper [clamp] and the clock step
      run by the animation interval;
    - [src/MapComponent.tsx]: the train-marker reconciliation effect and
      the blink timer, over a small model of the rendering surface.

    Numbers.  A JavaScript [number] is modelled as a rational ([Q]);
    the non-finite numbers are not modelled.  Equality of numbers is
    [Qeq] ([==]).
    - In [getPositionKm] and in the track area every comparison is made
      on the input itself, before any arithmetic; there the arithmetic
      of the source is kept operation by operation and exact, so a
      value may differ from the source's in the last place.
    - In the clock and in the clock label the source compares or
      floors the result of its arithmetic; there every operation is
      followed by the rounding of IEEE-754 binary64 ([roundDouble],
      round to nearest, ties to even, with gradual underflow; a result
      beyond the largest double is kept as the rounded number).

    Timers.  An interval of period [c] is modelled by its firings, the
    n-th one at time [n * c]. *)

From Stdlib Require Import QArith Qminmax Qabs Lqa Lia.
From Stdlib Require Import String List Bool.
From Stdlib Require Import Ascii Qround Qpower DecimalString.
From stdpp Require Import gmap strings list fin_maps.
Import ListNotations.

Set Warnings "-register-all".

Local Open Scope Q_scope.

(* ===================================================================== *)
(** ** Number helpers *)
(* ===================================================================== *)

(** [a < b] on numbers, as a boolean. *)
Definition Qltb (a b : Q) : bool := negb (Qle_bool b a).

(** [a <= b] on numbers, as a boolean. *)
Definition Qleb (a b : Q) : bool := Qle_bool a b.

(** [a > b] on numbers, as a boolean. *)
Definition Qgtb (a b : Q) : bool := Qltb b a.

(** The binade of a positive number: the [k] with [2^k <= q < 2^(k+1)]. *)
Definition floorLog2 (q : Q) : Z :=
  let k := (Z.log2 (Qnum q) - Z.log2 (Zpos (Qden q)))%Z in
  if Qle_bool (2 ^ k) q then k else (k - 1)%Z.

(** The nearest integer, a tie going to the even one. *)
Definition roundHalfEven (q : Q) : Z :=
  let f := Qfloor q in
  let r := q - inject_Z f in
  if Qle_bool r (1 # 2)
  then if Qle_bool (1 # 2) r
       then (if Z.even f then f else f + 1)%Z
       else f
  else (f + 1)%Z.

(** The double nearest to a number: 53 significant bits, the last
    place never below [2^-1074]. *)
Definition roundDouble (q : Q) : Q :=
  if Qeq_bool q 0 then 0
  else
    let a := Qabs q in
    let u := Z.max (floorLog2 a - 52) (-1074) in
    let r := inject_Z (roundHalfEven (a / 2 ^ u)) * 2 ^ u in
    if Qle_bool 0 q then r else - r.

(** [a + b], [a * b] and [a / b] on doubles. *)
Definition jsAdd (a b : Q) : Q := roundDouble (a + b).
Definition jsMul (a b : Q) : Q := roundDouble (a * b).
Definition jsDiv (a b : Q) : Q := roundDouble (a / b).

(* ===================================================================== *)
(** ** src/BspAkaltaraSimulation.tsx *)
(* ===================================================================== *)

(** [type TrainId = 'MEMU_LOCAL' | 'RAJDHANI' | 'JANSHATABDI' | 'UTKAL_EXP'].
    The union is a compile-time type only; at run time the identifier is
    a string and [getPositionKm] ends with a fallback for any other one,
    so the identifier is kept as a string. *)
Definition TrainId := string.

Definition MEMU_LOCAL : TrainId := "MEMU_LOCAL"%string.
Definition RAJDHANI : TrainId := "RAJDHANI"%string.
Definition JANSHATABDI : TrainId := "JANSHATABDI"%string.
Definition UTKAL_EXP : TrainId := "UTKAL_EXP"%string.

(** [interface TrainSimState]. *)
Record TrainSimState := mkTrainSimState {
  id : TrainId;
  name : string;
  colorClass : string;
  trackIndex : nat
}.

(** [const TOTAL_DISTANCE = 65]. *)
Definition TOTAL_DISTANCE : Q := 65.

(** [const trainsConfig]. *)
Definition trainsConfig : list TrainSimState :=
  [ mkTrainSimState MEMU_LOCAL "MEMU Local (On Time)" "bg-emerald-400" 0;
    mkTrainSimState RAJDHANI "Rajdhani Express (+15m)" "bg-yellow-400" 1;
    mkTrainSimState JANSHATABDI "Janshatabdi (+30m)" "bg-red-400" 1;
    mkTrainSimState UTKAL_EXP "Utkal Express (+15m)" "bg-sky-400" 2 ].

(** [const clamp = (v, min, max) => Math.max(min, Math.min(max, v))]. *)
Definition clamp (v min max : Q) : Q := Qmax min (Qmin max v).

(** [function getPositionKm(trainId, tMin)]: the four identity branches,
    each a chain of early returns on [tMin], and the final [return 0]. *)
Definition getPositionKm (trainId : TrainId) (tMin : Q) : Q :=
  if String.eqb trainId "MEMU_LOCAL" then
    if Qltb tMin 10 then 0
    else if Qltb tMin 50 then
      let dt := tMin - 10 in
      clamp dt 0 40
    else if Qltb tMin 60 then 40
    else if Qleb tMin 85 then
      let dt := tMin - 60 in
      clamp (40 + (dt * 25) / 25) 40 65
    else 65
  else if String.eqb trainId "RAJDHANI" then
    if Qltb tMin 25 then 0
    else if Qltb tMin 30 then 0
    else if Qltb tMin 50 then
      let dt := tMin - 30 in
      clamp ((dt * 40) / 20) 0 40
    else if Qleb tMin 70 then
      let dt := tMin - 50 in
      clamp (40 + (dt * 25) / 20) 40 65
    else 65
  else if String.eqb trainId "JANSHATABDI" then
    if Qltb tMin 50 then 65
    else if Qltb tMin 60 then 65
    else if Qltb tMin 95 then
      let dt := tMin - 60 in
      clamp (65 - (dt * 25) / 35) 40 65
    else if Qltb tMin 105 then 40
    else if Qleb tMin 135 then
      let dt := tMin - 105 in
      clamp (40 - (dt * 40) / 30) 0 40
    else 0
  else if String.eqb trainId "UTKAL_EXP" then
    if Qltb tMin 60 then 65
    else if Qltb tMin 65 then 65
    else if Qltb tMin 95 then
      let dt := tMin - 65 in
      clamp (65 - (dt * 25) / 30) 40 65
    else if Qleb tMin 125 then
      let dt := tMin - 95 in
      clamp (40 - (dt * 40) / 30) 0 40
    else 0
  else 0.

(** The updater passed to [setSimTime] by the animation interval:
    [(prev) => { const next = prev + speed * 0.2;
                 if (next > 150) return 0; return next; }]. *)
Definition advanceSimTime (speed prev : Q) : Q :=
  let next := jsAdd prev (jsMul speed (roundDouble (2 # 10))) in
  if Qgtb next 150 then 0 else next.

(* ===================================================================== *)
(** ** The segment table of the specification *)
(* ===================================================================== *)

(** The specification describes one entity's model as an ordered
    sequence of segments (held or linear, on half-open intervals) with a
    boundary value before the first and after the last one.  The source
    has no such table: it is the chain of comparisons inside
    [getPositionKm].  The definitions of this module follow the
    specification's words; [scheduleOf] reads the intervals and end
    values off the branches (and the comments) of [getPositionKm], and
    the theorems below compare the two. *)
Module SegmentModel.

Inductive SegmentRule :=
| Held (progress : Q)
| Linear (startProgress endProgress : Q).

Record Segment := mkSegment {
  seg_start : Q;
  seg_end : Q;
  seg_rule : SegmentRule
}.

Record PositionModel := mkPositionModel {
  before_first : Q;
  segments : list Segment;
  after_last : Q
}.

Definition rule_start (r : SegmentRule) : Q :=
  match r with Held p => p | Linear p0 _ => p0 end.

Definition rule_end (r : SegmentRule) : Q :=
  match r with Held p => p | Linear _ p1 => p1 end.

(** The unclamped linear rule:
    [startProgress + (t - segment.start) * rate]. *)
Definition linear_progress (s : Segment) (p0 p1 t : Q) : Q :=
  let rate := (p1 - p0) / (seg_end s - seg_start s) in
  p0 + (t - seg_start s) * rate.

Definition apply_rule (s : Segment) (t : Q) : Q :=
  match seg_rule s with
  | Held p => p
  | Linear p0 p1 => clamp (linear_progress s p0 p1 t) (Qmin p0 p1) (Qmax p0 p1)
  end.

Definition contains (s : Segment) (t : Q) : bool :=
  Qleb (seg_start s) t && Qltb t (seg_end s).

Definition first_start (m : PositionModel) : option Q :=
  match segments m with
  | [] => None
  | s :: _ => Some (seg_start s)
  end.

(** Locate the segment whose interval contains [t] by a linear scan
    and apply its rule; outside every interval return the boundary
    value of that side. *)
Definition evaluate (m : PositionModel) (t : Q) : Q :=
  match List.find (fun s => contains s t) (segments m) with
  | Some s => apply_rule s t
  | None =>
      match first_start m with
      | Some t0 => if Qltb t t0 then before_first m else after_last m
      | None => after_last m
      end
  end.

(** Segments are contiguous in time: each one is a non-empty interval
    and ends where the next one starts. *)
Fixpoint contiguous (l : list Segment) : Prop :=
  match l with
  | [] => True
  | s :: rest =>
      seg_start s < seg_end s /\
      match rest with
      | [] => True
      | s' :: _ => seg_end s == seg_start s'
      end /\
      contiguous rest
  end.

(** Progress is continuous across the table: entering with [p], each
    segment starts at the progress the previous one ended at, and the
    table leaves at [last]. *)
Fixpoint progress_chained (p : Q) (l : list Segment) (last : Q) : Prop :=
  match l with
  | [] => p == last
  | s :: rest =>
      p == rule_start (seg_rule s) /\
      progress_chained (rule_end (seg_rule s)) rest last
  end.

Definition well_formed (m : PositionModel) : Prop :=
  contiguous (segments m) /\
  progress_chained (before_first m) (segments m) (after_last m).

(** The times at which one segment ends and the next begins, with the
    start of the first and the end of the last one. *)
Fixpoint boundaries (l : list Segment) : list Q :=
  match l with
  | [] => []
  | s :: rest =>
      seg_start s ::
      match rest with
      | [] => [seg_end s]
      | _ :: _ => boundaries rest
      end
  end.

(** The table behind each identity branch of [getPositionKm]. *)
Definition scheduleOf (trainId : TrainId) : PositionModel :=
  if String.eqb trainId "MEMU_LOCAL" then
    mkPositionModel 0
      [ mkSegment 0 10 (Held 0);
        mkSegment 10 50 (Linear 0 40);
        mkSegment 50 60 (Held 40);
        mkSegment 60 85 (Linear 40 65) ]
      65
  else if String.eqb trainId "RAJDHANI" then
    mkPositionModel 0
      [ mkSegment 25 30 (Held 0);
        mkSegment 30 50 (Linear 0 40);
        mkSegment 50 70 (Linear 40 65) ]
      65
  else if String.eqb trainId "JANSHATABDI" then
    mkPositionModel 65
      [ mkSegment 50 60 (Held 65);
        mkSegment 60 95 (Linear 65 40);
        mkSegment 95 105 (Held 40);
        mkSegment 105 135 (Linear 40 0) ]
      0
  else if String.eqb trainId "UTKAL_EXP" then
    mkPositionModel 65
      [ mkSegment 60 65 (Held 65);
        mkSegment 65 95 (Linear 65 40);
        mkSegment 95 125 (Linear 40 0) ]
      0
  else mkPositionModel 0 [] 0.

End SegmentModel.

(** Continuity of a function of time at the instant [b]. *)
Definition continuous_at (f : Q -> Q) (b : Q) : Prop :=
  forall eps, 0 < eps ->
    exists delta, 0 < delta /\
      forall t, Qabs (t - b) < delta -> Qabs (f t - f b) < eps.

(** The value approached from the left at [b] is the value at [b]. *)
Definition left_continuous_at (f : Q -> Q) (b : Q) : Prop :=
  forall eps, 0 < eps ->
    exists delta, 0 < delta /\
      forall t, b - delta < t -> t < b -> Qabs (f t - f b) < eps.

(* ===================================================================== *)
(** ** JavaScript values and the rendering surface *)
(* ===================================================================== *)

Local Close Scope Q_scope.

(** The values a field of a live train record can hold. *)
Inductive jsval :=
| VUndefined
| VNull
| VBool (b : bool)
| VNum (q : Q)
| VNaN
| VStr (s : string).

(** JavaScript's ToBoolean: [undefined], [null], [false], [0], [NaN] and
    the empty string are falsy. *)
Definition toBoolean (v : jsval) : bool :=
  match v with
  | VUndefined | VNull | VNaN => false
  | VBool b => b
  | VNum q => negb (Qeq_bool q 0)
  | VStr s => negb (String.eqb s "")
  end.

(** [a && b]: the left operand when it is falsy, else the right one. *)
Definition jsAnd (a b : jsval) : jsval :=
  if toBoolean a then b else a.

(** Strict equality of two values ([NaN] equals nothing). *)
Definition jsval_eqb (a b : jsval) : bool :=
  match a, b with
  | VUndefined, VUndefined => true
  | VNull, VNull => true
  | VBool x, VBool y => Bool.eqb x y
  | VNum x, VNum y => Qeq_bool x y
  | VStr x, VStr y => String.eqb x y
  | _, _ => false
  end.

(** Modelled from the spec: [TrainData] is declared in [../types/types],
    which is not among the sources.  A live train record is taken as a
    JavaScript object, a finite map from field names to values, so that a
    record may miss any field ("missing/partial fields per entity"); the
    code reads [current_lat], [current_lon], [train_no] and [train_name],
    the layers read [status] and [priority]. *)
Abbreviation TrainData := (gmap string jsval).

(** Property access [t.f]: [undefined] when the field is absent. *)
Definition field (t : gmap string jsval) (f : string) : jsval :=
  default VUndefined (t !! f).

Inductive Geometry :=
| Point (lon lat : jsval)
| LineString (coordinates : list (jsval * jsval)).

(** A GeoJSON feature: [{ type: 'Feature', geometry, properties }]. *)
Record Feature := mkFeature {
  geometry : Geometry;
  properties : gmap string jsval
}.

(** The part of the Mapbox style-expression language the component uses. *)
Inductive Expr :=
| ELit (v : jsval)
| EGet (prop : string)
| EEq (a b : Expr)
| ECase (cond yes no : Expr)
| EMatch (input : Expr) (branches : list (jsval * Expr)) (fallback : Expr).

(** Evaluation of an expression on one feature's properties: ['get'] of
    an absent property is [null], ['case'] takes its branch when the
    condition is [true], ['match'] takes the first branch whose label
    equals the input. *)
Fixpoint evalExpr (props : gmap string jsval) (e : Expr) : jsval :=
  match e with
  | ELit v => v
  | EGet p => default VNull (props !! p)
  | EEq a b => VBool (jsval_eqb (evalExpr props a) (evalExpr props b))
  | ECase c y n =>
      match evalExpr props c with
      | VBool true => evalExpr props y
      | _ => evalExpr props n
      end
  | EMatch i bs d =>
      let v := evalExpr props i in
      (fix pick (l : list (jsval * Expr)) : jsval :=
         match l with
         | [] => evalExpr props d
         | (label, r) :: rest =>
             if jsval_eqb v label then evalExpr props r else pick rest
         end) bs
  end.

Inductive LayoutValue :=
| LExpr (e : Expr)
| LNum (q : Q)
| LStr (s : string)
| LOffset (x y : Q).

Record Layer := mkLayer {
  layer_type : string;
  layer_source : string;
  layout : gmap string LayoutValue;
  paint : gmap string Expr
}.

(** The state of the rendering surface ([mapboxgl.Map]) that the
    component reads or writes: the camera, the data of each GeoJSON
    source and the layers with their paint properties. *)
Record MapState := mkMapState {
  center : Q * Q;
  zoom : Q;
  sources : gmap string (list Feature);
  layers : gmap string Layer
}.

(** [src.setData({ type: 'FeatureCollection', features })] on the source
    named [src]. *)
Definition setData (m : MapState) (src : string) (features : list Feature) : MapState :=
  mkMapState (center m) (zoom m) (<[src := features]> (sources m)) (layers m).

(** [m.getLayer(id)]: is there such a layer. *)
Definition getLayer (m : MapState) (layerId : string) : option Layer :=
  layers m !! layerId.

(** [m.setPaintProperty(layerId, key, value)]; the callers check
    [getLayer] first, an absent layer leaves the surface as it is. *)
Definition setPaintProperty (m : MapState) (layerId key : string) (value : Expr) : MapState :=
  match layers m !! layerId with
  | Some l =>
      mkMapState (center m) (zoom m) (sources m)
        (<[layerId := mkLayer (layer_type l) (layer_source l) (layout l)
                        (<[key := value]> (paint l))]> (layers m))
  | None => m
  end.

(* ===================================================================== *)
(** ** src/MapComponent.tsx *)
(* ===================================================================== *)

Definition INDIA_CENTER : Q * Q := (77, 23)%Q.
Definition CG_CENTER : Q * Q := (82, 215 # 10)%Q.

(** The three layers added by the ['load'] handler. *)
Definition tracksLayer : Layer :=
  mkLayer "line" "tracks-source" ∅
    (<["line-width" := ELit (VNum 4)]>
     (<["line-color" :=
          EMatch (EGet "track")
            [ (VNum 1, ELit (VStr "#4F46E5"));
              (VNum 2, ELit (VStr "#F97316"));
              (VNum 3, ELit (VStr "#10B981")) ]
            (ELit (VStr "#666666"))]> ∅)).

Definition trainsLayer : Layer :=
  mkLayer "circle" "trains-source" ∅
    (<["circle-radius" := ELit (VNum 8)]>
     (<["circle-stroke-width" := ELit (VNum 2)]>
     (<["circle-stroke-color" := ELit (VStr "#ffffff")]>
     (<["circle-color" :=
          EMatch (EGet "priority")
            [ (VStr "High (🟢)", ELit (VStr "#34D399"));
              (VStr "Medium (🟡)", ELit (VStr "#FBBF24")) ]
            (ELit (VStr "#EF4444"))]>
     (<["circle-opacity" := ELit (VNum 1)]> ∅))))).

Definition trainsLabels : Layer :=
  mkLayer "symbol" "trains-source"
    (<["text-field" := LExpr (EGet "train_label")]>
     (<["text-size" := LNum 12]>
     (<["text-offset" := LOffset 0 (- (16 # 10))]>
     (<["text-anchor" := LStr "bottom"]> ∅))))
    (<["text-color" := ELit (VStr "#FFFFFF")]>
     (<["text-halo-color" := ELit (VStr "#000000")]>
     (<["text-halo-width" := ELit (VNum 1)]> ∅))).

(** The surface once the ['load'] handler has run: two empty sources
    and the three layers, with the camera of the data base [activeDB]. *)
Definition loadedMap (activeDB : string) : MapState :=
  let cg := String.eqb activeDB "cg_db" in
  mkMapState
    (if cg then CG_CENTER else INDIA_CENTER)
    (if cg then 6 else 4)%Q
    (<["trains-source" := []]> (<["tracks-source" := []]> ∅))
    (<["trains-labels" := trainsLabels]>
     (<["trains-layer" := trainsLayer]>
     (<["tracks-layer" := tracksLayer]> ∅))).

Section TrainMarkers.

(** Number-to-string conversion of template literals, left abstract:
    the decimal rendering of a number plays no part below. *)
Variable numberToString : Q -> string.

(** JavaScript's ToString on a field value. *)
Definition toString (v : jsval) : string :=
  match v with
  | VUndefined => "undefined"
  | VNull => "null"
  | VBool true => "true"
  | VBool false => "false"
  | VNum q => numberToString q
  | VNaN => "NaN"
  | VStr s => s
  end.

(** The predicate of [trains.filter]:
    [(t) => t.current_lat && t.current_lon], read as a boolean. *)
Definition hasCoordinates (t : TrainData) : bool :=
  toBoolean (jsAnd (field t "current_lat") (field t "current_lon")).

(** The function of [.map]: a point feature at
    [[t.current_lon, t.current_lat]] whose properties are those of the
    record, with [train_label] set to [`${t.train_no} ${t.train_name}`]. *)
Definition toFeature (t : TrainData) : Feature :=
  mkFeature
    (Point (field t "current_lon") (field t "current_lat"))
    (<["train_label" :=
         VStr (toString (field t "train_no") ++ " " ++ toString (field t "train_name"))]> t).

(** [trains.filter(...).map(...)]. *)
Definition trainFeatures (trains : list TrainData) : list Feature :=
  List.map toFeature (List.filter hasCoordinates trains).

(** Effect 2, "update train markers when data changes": nothing
    happens while the map or its source is missing, else the source
    receives the features of the snapshot. *)
Definition updateTrainMarkers (mapRef : option MapState) (trains : list TrainData)
  : option MapState :=
  match mapRef with
  | None => None
  | Some m =>
      match sources m !! "trains-source" with
      | None => Some m
      | Some _ => Some (setData m "trains-source" (trainFeatures trains))
      end
  end.

End TrainMarkers.

(** The expression of the blink callback:
    [['case', ['==', ['get', 'status'], 'Held'], visible ? 1 : 0.2, 1]]. *)
Definition opacityExpr (visible : bool) : Expr :=
  ECase (EEq (EGet "status") (ELit (VStr "Held")))
        (ELit (VNum (if visible then 1 else (2 # 10))%Q))
        (ELit (VNum 1)).

(** State of effect 3, "blink held trains": the map reference and the
    [visible] variable captured by the interval callback. *)
Record BlinkState := mkBlinkState {
  mapRef : option MapState;
  visible : bool
}.

(** The effect body before the timer is set: [let visible = true]; no
    timer is created when there is no map. *)
Definition blinkStart (map : option MapState) : option BlinkState :=
  match map with
  | None => None
  | Some m => Some (mkBlinkState (Some m) true)
  end.

(** One firing of the interval callback. *)
Definition blinkTick (st : BlinkState) : BlinkState :=
  match mapRef st with
  | None => st
  | Some m =>
      match getLayer m "trains-layer" with
      | None => st
      | Some _ =>
          mkBlinkState
            (Some (setPaintProperty m "trains-layer" "circle-opacity"
                     (opacityExpr (visible st))))
            (negb (visible st))
      end
  end.

(** The period of the blink interval, in milliseconds. *)
Definition BLINK_INTERVAL_MS : Z := 500.

(** How often an interval of period [BLINK_INTERVAL_MS] has fired once
    [elapsed] milliseconds have passed since it was set. *)
Definition firings (elapsed : Z) : nat := Z.to_nat (elapsed / BLINK_INTERVAL_MS).

(** The states the timer goes through in [n] firings, the starting one
    first. *)
Fixpoint blinkTrace (n : nat) (st : BlinkState) : list BlinkState :=
  match n with
  | O => [st]
  | S k => st :: blinkTrace k (blinkTick st)
  end.

(** The state after [n] firings. *)
Fixpoint blinkTicks (n : nat) (st : BlinkState) : BlinkState :=
  match n with
  | O => st
  | S k => blinkTicks k (blinkTick st)
  end.

(** The opacity the ['trains-layer'] paints a feature with. *)
Definition circleOpacity (m : MapState) (props : gmap string jsval) : option jsval :=
  match getLayer m "trains-layer" with
  | None => None
  | Some l =>
      match paint l !! "circle-opacity" with
      | None => None
      | Some e => Some (evalExpr props e)
      end
  end.

(** The opacity a state shows a feature with. *)
Definition shownOpacity (props : gmap string jsval) (st : BlinkState) : option jsval :=
  match mapRef st with
  | None => None
  | Some m => circleOpacity m props
  end.

(** A held marker is "on" at full opacity. *)
Definition isOn (o : option jsval) : bool :=
  match o with
  | Some (VNum q) => Qeq_bool q 1
  | _ => false
  end.

(** Number of on/off changes along a sequence of visual states. *)
Fixpoint countToggles (l : list bool) : nat :=
  match l with
  | a :: ((b :: _) as rest) =>
      (if Bool.eqb a b then 0 else 1) + countToggles rest
  | _ => 0
  end.

(** The timer can fire: there is a map and it has the layer. *)
Definition ready (st : BlinkState) : Prop :=
  exists m l, mapRef st = Some m /\ layers m !! "trains-layer" = Some l.

(** The on/off states a feature shows along [n] firings. *)
Definition visualTrace (props : gmap string jsval) (n : nat) (st : BlinkState) : list bool :=
  List.map (fun s => isOn (shownOpacity props s)) (blinkTrace n st).

(** The properties of a held train, as far as the opacity looks. *)
Definition heldProps : gmap string jsval := {["status" := VStr "Held"]}.

(** A snapshot of two live records: one located, one without a
    position. *)
Definition locatedTrain : gmap string jsval :=
  <["train_no" := VStr "12441"]>
  (<["train_name" := VStr "Rajdhani Express"]>
  (<["current_lat" := VNum (2207 # 100)]>
  (<["current_lon" := VNum (8214 # 100)]>
  (<["status" := VStr "On Time"]> ∅)))).

Definition unlocatedTrain : gmap string jsval :=
  <["train_no" := VStr "18237"]>
  (<["train_name" := VStr "Chhattisgarh Express"]>
  (<["current_lat" := VNull]>
  (<["status" := VStr "Held"]> ∅))).

(** A record with a position that is no place on earth. *)
Definition misplacedTrain : gmap string jsval :=
  <["train_no" := VStr "12809"]>
  (<["train_name" := VStr "Howrah Mail"]>
  (<["current_lat" := VNum 999]>
  (<["current_lon" := VNum (8214 # 100)]>
  (<["status" := VStr "On Time"]> ∅)))).

(** A valid spatial coordinate pair, in the usual sense: a latitude
    that is a number within [-90, 90] and a longitude that is a number
    within [-180, 180]. *)
Definition validLatitude (v : jsval) : bool :=
  match v with
  | VNum q => Qle_bool (-90) q && Qle_bool q 90
  | _ => false
  end.

Definition validLongitude (v : jsval) : bool :=
  match v with
  | VNum q => Qle_bool (-180) q && Qle_bool q 180
  | _ => false
  end.

Definition validCoordinates (t : gmap string jsval) : bool :=
  validLatitude (field t "current_lat") && validLongitude (field t "current_lon").

(* ===================================================================== *)
(** ** src/BspAkaltaraSimulation.tsx: the component around the model *)
(* ===================================================================== *)

Local Open Scope Q_scope.

(** The state of [BspAkaltaraSimulation]: the three [useState] cells. *)
Record SimState := mkSimState {
  simTime : Q;
  isPlaying : bool;
  speed : Q
}.

(** [useState(0)], [useState(true)], [useState(5)]. *)
Definition initialSim : SimState := mkSimState 0 true 5.

(** The speed buttons: [[1, 5, 10].map((s) => <button onClick={() => setSpeed(s)}>)]. *)
Definition speedButtons : list Q := [1; 5; 10].

(** What can happen to the component: the interval fires, or one of
    the buttons is clicked (the speed buttons by their position). *)
Inductive SimEvent :=
| IntervalFires
| ClickPlayPause
| ClickReset
| ClickSpeed (button : nat).

(** The interval exists only while [isPlaying] (the effect returns
    before [setInterval] otherwise, and its cleanup clears it), so a
    firing is felt only then. *)
Definition simStep (st : SimState) (e : SimEvent) : SimState :=
  match e with
  | IntervalFires =>
      if isPlaying st
      then mkSimState (advanceSimTime (speed st) (simTime st)) (isPlaying st) (speed st)
      else st
  | ClickPlayPause => mkSimState (simTime st) (negb (isPlaying st)) (speed st)
  | ClickReset => mkSimState 0 (isPlaying st) (speed st)
  | ClickSpeed button =>
      match nth_error speedButtons button with
      | Some s => mkSimState (simTime st) (isPlaying st) s
      | None => st
      end
  end.

(** The component after a sequence of events. *)
Definition simRun (st : SimState) (events : list SimEvent) : SimState :=
  fold_left simStep events st.

(** [n] firings of the interval at a fixed speed. *)
Fixpoint advanceSimTimes (n : nat) (speed prev : Q) : Q :=
  match n with
  | O => prev
  | S k => advanceSimTimes k speed (advanceSimTime speed prev)
  end.

(** The times the clock shows along [n] firings at a fixed speed, the
    starting one first. *)
Fixpoint simTimeTrace (n : nat) (speed prev : Q) : list Q :=
  match n with
  | O => [prev]
  | S k => prev :: simTimeTrace k speed (advanceSimTime speed prev)
  end.

(** JavaScript's [a % b]: the remainder of the division truncated
    towards zero.  The remainder of two doubles is a double: nothing is
    rounded. *)
Definition Qtruncate (q : Q) : Z :=
  if Qle_bool 0 q then Qfloor q else Qceiling q.

Definition jsRemainder (a b : Q) : Q :=
  a - b * inject_Z (Qtruncate (a / b)).

(** [toString()] of a number that is an integer. *)
Definition integerToString (z : Z) : string :=
  NilZero.string_of_int (Z.to_int z).

(** [s.padStart(targetLength, pad)] for a one-character pad. *)
Definition padStart (targetLength : nat) (pad : ascii) (s : string) : string :=
  (string_of_list_ascii (repeat pad (targetLength - String.length s)) ++ s)%string.

(** [currentClock]: the label [`${h}:${m}`] of the simulated time. *)
Definition currentClock (simTime : Q) : string :=
  let totalMinutes := jsAdd (jsMul 12 60) simTime in
  let h := Qfloor (jsDiv totalMinutes 60) in
  let m := padStart 2 "0" (integerToString (Qfloor (jsRemainder totalMinutes 60))) in
  (integerToString h ++ ":" ++ m)%string.

(** [s.split(sep)] for a one-character separator: the pieces between
    the separators, at least one. *)
Fixpoint jsSplit (sep : ascii) (s : string) : list string :=
  match s with
  | EmptyString => [EmptyString]
  | String c rest =>
      if Ascii.eqb c sep then EmptyString :: jsSplit sep rest
      else match jsSplit sep rest with
           | piece :: pieces => String c piece :: pieces
           | [] => [String c EmptyString]
           end
  end.

(** [pieces.join(sep)]. *)
Fixpoint jsJoin (sep : string) (pieces : list string) : string :=
  match pieces with
  | [] => EmptyString
  | [piece] => piece
  | piece :: rest => (piece ++ sep ++ jsJoin sep rest)%string
  end.

(** [s.includes(c)] for one character. *)
Fixpoint jsIncludes (c : ascii) (s : string) : bool :=
  match s with
  | EmptyString => false
  | String c' rest => Ascii.eqb c' c || jsIncludes c rest
  end.

(** The bold line of a marker: [t.name.split(' ')[0]]. *)
Definition markerTitle (name : string) : string :=
  nth 0 (jsSplit " " name) EmptyString.

(** The small line of a marker:
    [t.name.includes('+') ? t.name.split(' ').slice(1).join(' ') : '']. *)
Definition markerSubtitle (name : string) : string :=
  if jsIncludes "+" name then jsJoin " " (skipn 1 (jsSplit " " name)) else EmptyString.

(** [const leftPercent = (km / TOTAL_DISTANCE) * 100]. *)
Definition leftPercent (km : Q) : Q := (km / TOTAL_DISTANCE) * 100.

(** One rendered train: its React key, the [left] of its style, in
    percent, and its two lines of text. *)
Record Marker := mkMarker {
  marker_key : TrainId;
  marker_left : Q;
  marker_title : string;
  marker_subtitle : string
}.

(** The body of [.map((t) => ...)] in the track area. *)
Definition renderMarker (simTime : Q) (t : TrainSimState) : Marker :=
  let km := getPositionKm (id t) simTime in
  mkMarker (id t) (clamp (leftPercent km) 0 100)
           (markerTitle (name t)) (markerSubtitle (name t)).

(** [trainsConfig.filter((t) => t.trackIndex === trackIdx).map(...)]. *)
Definition renderTrack (simTime : Q) (trackIdx : nat) : list Marker :=
  List.map (renderMarker simTime)
    (List.filter (fun t => Nat.eqb (trackIndex t) trackIdx) trainsConfig).

(** [[0, 1, 2].map((trackIdx) => ...)]: the three track rows. *)
Definition renderTracks (simTime : Q) : list (list Marker) :=
  List.map (renderTrack simTime) [0; 1; 2]%nat.

Local Close Scope Q_scope.

(* ===================================================================== *)
(** ** src/MapComponent.tsx: the map's life cycle, the track section and
       the camera *)
(* ===================================================================== *)

Definition BSP_AKALTARA_CENTER : Q * Q := (82075 # 1000, 2207 # 100)%Q.

(** The surface right after [new mapboxgl.Map({...})]: the camera of
    [activeDB], no source and no layer yet. *)
Definition newMap (activeDB : string) : MapState :=
  mkMapState
    (if String.eqb activeDB "cg_db" then CG_CENTER else INDIA_CENTER)
    (if String.eqb activeDB "cg_db" then 6 else 4)%Q
    ∅ ∅.

(** [map.addSource(id, { type: 'geojson', data })]. *)
Definition addSource (m : MapState) (sourceId : string) (data : list Feature) : MapState :=
  mkMapState (center m) (zoom m) (<[sourceId := data]> (sources m)) (layers m).

(** [map.addLayer({ id, ... })]. *)
Definition addLayer (m : MapState) (layerId : string) (l : Layer) : MapState :=
  mkMapState (center m) (zoom m) (sources m) (<[layerId := l]> (layers m)).

(** The ['load'] handler, up to the request for the track section. *)
Definition onLoad (m : MapState) : MapState :=
  let m := addSource m "tracks-source" [] in
  let m := addLayer m "tracks-layer" tracksLayer in
  let m := addSource m "trains-source" [] in
  let m := addLayer m "trains-layer" trainsLayer in
  addLayer m "trains-labels" trainsLabels.

(** Effect 1: [if (mapRef.current || !mapContainer.current) return;]
    then the map is created and stored in the reference. *)
Definition initializeMap (mapRef : option MapState) (mapContainer : bool)
    (activeDB : string) : option MapState :=
  match mapRef with
  | Some m => Some m
  | None => if mapContainer then Some (newMap activeDB) else None
  end.

(** The cleanup of effect 1: the map is removed and the reference reset. *)
Definition cleanupMap (mapRef : option MapState) : option MapState := None.

(** [a || b]: the left operand when it is truthy, else the right one. *)
Definition jsOr (a b : jsval) : jsval :=
  if toBoolean a then a else b.

(** Modelled from the spec: the answer of [/api/map/section/bsp-akaltara]
    comes from the backend, which is not among the sources.  Of each of
    its features the handler reads [coordinates] and [track]. *)
Record SectionFeature := mkSectionFeature {
  section_coordinates : list (jsval * jsval);
  section_track : jsval
}.

(** The function of [(data.features || []).map(...)]: a line with the
    property [track: f.track || 1]. *)
Definition sectionToFeature (f : SectionFeature) : Feature :=
  mkFeature (LineString (section_coordinates f))
            {["track" := jsOr (section_track f) (VNum 1)]}.

(** The handler of the section's answer; [features] is [None] when the
    answer has no [features]. *)
Definition loadSection (m : MapState) (features : option (list SectionFeature)) : MapState :=
  setData m "tracks-source" (List.map sectionToFeature (default [] features)).

(** [map.flyTo({ center, zoom, essential: true })], by the camera the
    transition ends at. *)
Definition flyTo (m : MapState) (target : Q * Q) (z : Q) : MapState :=
  mkMapState target z (sources m) (layers m).

(** Effect 4: fly to the camera of the data base when it changes. *)
Definition flyToActiveDB (mapRef : option MapState) (activeDB : string) : option MapState :=
  match mapRef with
  | None => None
  | Some m =>
      let center := if String.eqb activeDB "cg_db" then CG_CENTER else INDIA_CENTER in
      let zoom := (if String.eqb activeDB "cg_db" then 6 else 4)%Q in
      Some (flyTo m center zoom)
  end.

(** The three navigation buttons: [mapRef.current?.flyTo(...)]. *)
Definition navigateToIndia (mapRef : option MapState) : option MapState :=
  match mapRef with
  | None => None
  | Some m => Some (flyTo m INDIA_CENTER 4%Q)
  end.

Definition navigateToCG (mapRef : option MapState) : option MapState :=
  match mapRef with
  | None => None
  | Some m => Some (flyTo m CG_CENTER 6%Q)
  end.

Definition navigateToBSPSection (mapRef : option MapState) : option MapState :=
  match mapRef with
  | None => None
  | Some m => Some (flyTo m BSP_AKALTARA_CENTER 12%Q)
  end.

(** The paint a layer gives a feature for one property. *)
Definition paintOf (m : MapState) (layerId key : string) (props : gmap string jsval)
  : option jsval :=
  match getLayer m layerId with
  | None => None
  | Some l =>
      match paint l !! key with
      | None => None
      | Some e => Some (evalExpr props e)
      end
  end.

Local Open Scope Q_scope.

(* ===================================================================== *)
(** * Properties of the position model *)
(* ===================================================================== *)

(** ** Comparisons and [clamp] *)

Lemma Qltb_reflect (a b : Q) : reflect (a < b) (Qltb a b).
Proof.
  unfold Qltb. destruct (Qle_bool b a) eqn:E; simpl; constructor.
  - apply Qle_bool_iff in E. intro H. lra.
  - destruct (Qlt_le_dec a b) as [H | H]; [exact H |].
    apply Qle_bool_iff in H. congruence.
Qed.

Lemma Qleb_reflect (a b : Q) : reflect (a <= b) (Qleb a b).
Proof.
  unfold Qleb. destruct (Qle_bool a b) eqn:E; constructor.
  - now apply Qle_bool_iff.
  - intro H. apply Qle_bool_iff in H. congruence.
Qed.

Lemma Qgtb_reflect (a b : Q) : reflect (b < a) (Qgtb a b).
Proof. unfold Qgtb. apply Qltb_reflect. Qed.

Lemma clamp_inside (v lo hi : Q) : lo <= v -> v <= hi -> clamp v lo hi == v.
Proof.
  intros Hlo Hhi. unfold clamp.
  rewrite (Q.min_r hi v) by exact Hhi.
  apply Q.max_r. exact Hlo.
Qed.

Lemma clamp_bounds (v lo hi : Q) : lo <= hi -> lo <= clamp v lo hi /\ clamp v lo hi <= hi.
Proof.
  intros H. unfold clamp. split.
  - apply Q.le_max_l.
  - apply Q.max_lub; [exact H | apply Q.le_min_l].
Qed.

(** ** Rounding to the nearest double *)

Lemma two_power_pos (z : Z) : 0 < 2 ^ z.
Proof. apply Qpower_0_lt. reflexivity. Qed.

Lemma roundHalfEven_close (y : Q) :
  y - (1 # 2) <= inject_Z (roundHalfEven y) /\
  inject_Z (roundHalfEven y) <= y + (1 # 2).
Proof.
  unfold roundHalfEven. cbv zeta.
  pose proof (Qfloor_le y) as Hlo. pose proof (Qlt_floor y) as Hhi.
  rewrite inject_Z_plus in Hhi. change (inject_Z 1) with 1 in Hhi.
  destruct (Qle_bool (y - inject_Z (Qfloor y)) (1 # 2)) eqn:E1.
  - apply Qle_bool_iff in E1.
    destruct (Qle_bool (1 # 2) (y - inject_Z (Qfloor y))) eqn:E2.
    + apply Qle_bool_iff in E2.
      destruct (Z.even (Qfloor y)).
      * lra.
      * rewrite inject_Z_plus. change (inject_Z 1) with 1. lra.
    + lra.
  - assert (E : ~ y - inject_Z (Qfloor y) <= 1 # 2).
    { intro H. apply Qle_bool_iff in H. congruence. }
    rewrite inject_Z_plus. change (inject_Z 1) with 1. lra.
Qed.

Lemma roundHalfEven_nonneg (y : Q) : 0 <= y -> (0 <= roundHalfEven y)%Z.
Proof.
  intros Hy.
  assert (Hf : (0 <= Qfloor y)%Z).
  { change 0%Z with (Qfloor 0). apply Qfloor_resp_le. exact Hy. }
  unfold roundHalfEven. cbv zeta.
  destruct (Qle_bool _ _); [destruct (Qle_bool _ _); [destruct (Z.even _) |] |]; lia.
Qed.

Lemma roundDouble_nonneg (q : Q) : 0 <= q -> 0 <= roundDouble q.
Proof.
  intros Hq. unfold roundDouble. cbv zeta.
  destruct (Qeq_bool q 0); [lra |].
  assert (Hb : Qle_bool 0 q = true) by (apply Qle_bool_iff; exact Hq).
  rewrite Hb.
  set (u := Z.max (floorLog2 (Qabs q) - 52) (-1074)).
  pose proof (two_power_pos u) as Hp.
  apply Qmult_le_0_compat; [| lra].
  change 0 with (inject_Z 0). rewrite <- Zle_Qle.
  apply roundHalfEven_nonneg.
  apply Qle_shift_div_l; [exact Hp |]. rewrite Qmult_0_l. apply Qabs_nonneg.
Qed.

Lemma two_power_succ (z : Z) : 2 ^ (z + 1) == 2 * 2 ^ z.
Proof. rewrite Qpower_plus by (intro H; discriminate H). change (2 ^ 1) with 2. ring. Qed.

Lemma floorLog2_spec (x : Q) :
  0 < x -> 2 ^ floorLog2 x <= x /\ x < 2 ^ (floorLog2 x + 1).
Proof.
  intros Hx. destruct x as [n d].
  assert (Hn : (0 < n)%Z) by (unfold Qlt in Hx; simpl in Hx; lia).
  unfold floorLog2. cbn [Qnum Qden].
  destruct (Z.log2_spec n Hn) as [Hn1 Hn2].
  destruct (Z.log2_spec (Zpos d) (Pos2Z.is_pos d)) as [Hd1 Hd2].
  pose proof (Z.log2_nonneg n) as Hln. pose proof (Z.log2_nonneg (Zpos d)) as Hld.
  set (ln := Z.log2 n) in *. set (ld := Z.log2 (Zpos d)) in *.
  assert (HPn : 2 ^ ln == inject_Z (2 ^ ln)) by (symmetry; apply (Zpower_Qpower 2 ln Hln)).
  assert (HPd : 2 ^ ld == inject_Z (2 ^ ld)) by (symmetry; apply (Zpower_Qpower 2 ld Hld)).
  assert (HN1 : 2 ^ ln <= inject_Z n) by (rewrite HPn, <- Zle_Qle; exact Hn1).
  assert (HN2 : inject_Z n < 2 * 2 ^ ln).
  { rewrite <- two_power_succ.
    rewrite <- (Zpower_Qpower 2 (ln + 1)) by lia. rewrite <- Zlt_Qlt. exact Hn2. }
  assert (HD1 : 2 ^ ld <= inject_Z (Zpos d)) by (rewrite HPd, <- Zle_Qle; exact Hd1).
  assert (HD2 : inject_Z (Zpos d) < 2 * 2 ^ ld).
  { rewrite <- two_power_succ.
    rewrite <- (Zpower_Qpower 2 (ld + 1)) by lia. rewrite <- Zlt_Qlt. exact Hd2. }
  assert (HK : 2 ^ (ln - ld) * 2 ^ ld == 2 ^ ln).
  { rewrite <- Qpower_plus by (intro H; discriminate H).
    replace (ln - ld + ld)%Z with ln by lia. reflexivity. }
  pose proof (two_power_pos (ln - ld)) as HKpos.
  pose proof (two_power_pos ld) as HPdpos.
  assert (HX : (n # d) * inject_Z (Zpos d) == inject_Z n).
  { rewrite (Qmake_Qdiv n d). field. intro H. discriminate H. }
  assert (HDpos : 0 < inject_Z (Zpos d)) by reflexivity.
  set (X := n # d) in *. set (D := inject_Z (Zpos d)) in *.
  set (N := inject_Z n) in *. set (K := 2 ^ (ln - ld)) in *.
  set (Pd := 2 ^ ld) in *. set (Pn := 2 ^ ln) in *.
  assert (Hup : X < 2 * K).
  { destruct (Qlt_le_dec X (2 * K)) as [H | H]; [exact H | exfalso].
    assert (2 * K * D <= X * D) by nra. nra. }
  assert (Hlow : K * (1 # 2) < X).
  { destruct (Qlt_le_dec (K * (1 # 2)) X) as [H | H]; [exact H | exfalso].
    assert (X * D <= K * (1 # 2) * D) by nra. nra. }
  destruct (Qle_bool K X) eqn:E.
  - apply Qle_bool_iff in E. split; [exact E |].
    rewrite two_power_succ. exact Hup.
  - assert (E' : X < K).
    { destruct (Qlt_le_dec X K) as [H | H]; [exact H |].
      apply Qle_bool_iff in H. congruence. }
    replace (ln - ld - 1 + 1)%Z with (ln - ld)%Z by lia.
    split; [| exact E'].
    assert (Hhalf : 2 ^ (ln - ld - 1) * 2 == K).
    { unfold K. replace (ln - ld)%Z with (ln - ld - 1 + 1)%Z at 2 by lia.
      rewrite two_power_succ. ring. }
    lra.
Qed.

Lemma floorLog2_unique (x : Q) (k : Z) :
  2 ^ k <= x -> x < 2 ^ (k + 1) -> floorLog2 x = k.
Proof.
  intros Hlo Hhi.
  assert (Hx : 0 < x) by (pose proof (two_power_pos k); lra).
  destruct (floorLog2_spec x Hx) as [Hlo' Hhi'].
  set (r := floorLog2 x) in *.
  assert (H1 : (r < k + 1)%Z).
  { apply (Qpower_lt_compat_l_inv 2); [lra | reflexivity]. }
  assert (H2 : (k < r + 1)%Z).
  { apply (Qpower_lt_compat_l_inv 2); [lra | reflexivity]. }
  lia.
Qed.

Lemma roundDouble_binade (x : Q) (k : Z) :
  2 ^ k <= x -> x < 2 ^ (k + 1) -> (-1022 <= k)%Z ->
  exists m : Z,
    roundDouble x = inject_Z m * 2 ^ (k - 52) /\
    x - 2 ^ (k - 52) * (1 # 2) <= inject_Z m * 2 ^ (k - 52) /\
    inject_Z m * 2 ^ (k - 52) <= x + 2 ^ (k - 52) * (1 # 2).
Proof.
  intros Hlo Hhi Hk.
  assert (Hx : 0 < x) by (pose proof (two_power_pos k); lra).
  assert (Habs : Qabs x == x) by (apply Qabs_pos; lra).
  assert (Hlog : floorLog2 (Qabs x) = k).
  { apply floorLog2_unique; rewrite Habs; assumption. }
  unfold roundDouble. cbv zeta.
  assert (Hz : Qeq_bool x 0 = false).
  { destruct (Qeq_bool x 0) eqn:E; [| reflexivity].
    apply Qeq_bool_iff in E. lra. }
  assert (Hnn : Qle_bool 0 x = true) by (apply Qle_bool_iff; lra).
  rewrite Hz, Hnn, Hlog.
  replace (Z.max (k - 52) (-1074)) with (k - 52)%Z by lia.
  pose proof (two_power_pos (k - 52)) as Hc.
  set (c := 2 ^ (k - 52)) in *.
  exists (roundHalfEven (Qabs x / c)). split; [reflexivity |].
  destruct (roundHalfEven_close (Qabs x / c)) as [H1 H2].
  assert (Hy : Qabs x / c * c == x).
  { rewrite Habs. field. lra. }
  set (y := Qabs x / c) in *. set (m := inject_Z (roundHalfEven y)) in *.
  split; nra.
Qed.

Lemma jsAdd_nonneg (a b : Q) : 0 <= a -> 0 <= b -> 0 <= jsAdd a b.
Proof. intros Ha Hb. apply roundDouble_nonneg. lra. Qed.

Lemma jsMul_nonneg (a b : Q) : 0 <= a -> 0 <= b -> 0 <= jsMul a b.
Proof. intros Ha Hb. apply roundDouble_nonneg. apply Qmult_le_0_compat; assumption. Qed.

(** ** The four branches, as equations *)

Lemma getPositionKm_MEMU (t : Q) :
  getPositionKm MEMU_LOCAL t =
    if Qltb t 10 then 0
    else if Qltb t 50 then clamp (t - 10) 0 40
    else if Qltb t 60 then 40
    else if Qleb t 85 then clamp (40 + ((t - 60) * 25) / 25) 40 65
    else 65.
Proof. reflexivity. Qed.

Lemma getPositionKm_RAJDHANI (t : Q) :
  getPositionKm RAJDHANI t =
    if Qltb t 25 then 0
    else if Qltb t 30 then 0
    else if Qltb t 50 then clamp (((t - 30) * 40) / 20) 0 40
    else if Qleb t 70 then clamp (40 + ((t - 50) * 25) / 20) 40 65
    else 65.
Proof. reflexivity. Qed.

Lemma getPositionKm_JANSHATABDI (t : Q) :
  getPositionKm JANSHATABDI t =
    if Qltb t 50 then 65
    else if Qltb t 60 then 65
    else if Qltb t 95 then clamp (65 - ((t - 60) * 25) / 35) 40 65
    else if Qltb t 105 then 40
    else if Qleb t 135 then clamp (40 - ((t - 105) * 40) / 30) 0 40
    else 0.
Proof. reflexivity. Qed.

Lemma getPositionKm_UTKAL (t : Q) :
  getPositionKm UTKAL_EXP t =
    if Qltb t 60 then 65
    else if Qltb t 65 then 65
    else if Qltb t 95 then clamp (65 - ((t - 65) * 25) / 30) 40 65
    else if Qleb t 125 then clamp (40 - ((t - 95) * 40) / 30) 0 40
    else 0.
Proof. reflexivity. Qed.

(** Decide every comparison of a branch chain. *)
Ltac split_chain :=
  repeat match goal with
  | |- context [Qltb ?a ?b] => destruct (Qltb_reflect a b)
  | |- context [Qleb ?a ?b] => destruct (Qleb_reflect a b)
  end.

(** Linear arithmetic after turning a division by a literal into a
    multiplication by its inverse. *)
Ltac qlra :=
  repeat match goal with
  | |- context [Qdiv ?x (Qmake (Zpos ?p) 1)] =>
      change (Qdiv x (Qmake (Zpos p) 1)) with (x * (1 # p))
  end;
  lra.

(** Close one piece of a closed form: the guards by arithmetic, the
    value by removing an inactive [clamp]. *)
Ltac piece :=
  repeat match goal with
  | |- _ /\ _ => split
  | |- _ < _ => lra
  | |- _ <= _ => lra
  | |- clamp _ _ _ == _ => rewrite clamp_inside; qlra
  | |- _ == _ => reflexivity
  end.

(** ** Closed forms: which piece applies at [t], and its value *)

Lemma MEMU_cases (t : Q) :
  (t < 10 /\ getPositionKm MEMU_LOCAL t == 0) \/
  (10 <= t /\ t < 50 /\ getPositionKm MEMU_LOCAL t == t - 10) \/
  (50 <= t /\ t < 60 /\ getPositionKm MEMU_LOCAL t == 40) \/
  (60 <= t /\ t <= 85 /\ getPositionKm MEMU_LOCAL t == t - 20) \/
  (85 < t /\ getPositionKm MEMU_LOCAL t == 65).
Proof.
  rewrite getPositionKm_MEMU. split_chain.
  - left. piece.
  - right; left. piece.
  - right; right; left. piece.
  - right; right; right; left. piece.
  - right; right; right; right. piece.
Qed.

Lemma RAJDHANI_cases (t : Q) :
  (t < 30 /\ getPositionKm RAJDHANI t == 0) \/
  (30 <= t /\ t < 50 /\ getPositionKm RAJDHANI t == 2 * t - 60) \/
  (50 <= t /\ t <= 70 /\ getPositionKm RAJDHANI t == (5 # 4) * t - (45 # 2)) \/
  (70 < t /\ getPositionKm RAJDHANI t == 65).
Proof.
  rewrite getPositionKm_RAJDHANI. split_chain.
  - left. piece.
  - left. piece.
  - right; left. piece.
  - right; right; left. piece.
  - right; right; right. piece.
Qed.

Lemma JANSHATABDI_cases (t : Q) :
  (t < 60 /\ getPositionKm JANSHATABDI t == 65) \/
  (60 <= t /\ t < 95 /\ getPositionKm JANSHATABDI t == 65 - (5 # 7) * (t - 60)) \/
  (95 <= t /\ t < 105 /\ getPositionKm JANSHATABDI t == 40) \/
  (105 <= t /\ t <= 135 /\ getPositionKm JANSHATABDI t == 40 - (4 # 3) * (t - 105)) \/
  (135 < t /\ getPositionKm JANSHATABDI t == 0).
Proof.
  rewrite getPositionKm_JANSHATABDI. split_chain.
  - left. piece.
  - left. piece.
  - right; left. piece.
  - right; right; left. piece.
  - right; right; right; left. piece.
  - right; right; right; right. piece.
Qed.

Lemma UTKAL_cases (t : Q) :
  (t < 65 /\ getPositionKm UTKAL_EXP t == 65) \/
  (65 <= t /\ t < 95 /\ getPositionKm UTKAL_EXP t == 65 - (5 # 6) * (t - 65)) \/
  (95 <= t /\ t <= 125 /\ getPositionKm UTKAL_EXP t == 40 - (4 # 3) * (t - 95)) \/
  (125 < t /\ getPositionKm UTKAL_EXP t == 0).
Proof.
  rewrite getPositionKm_UTKAL. split_chain.
  - left. piece.
  - left. piece.
  - right; left. piece.
  - right; right; left. piece.
  - right; right; right. piece.
Qed.

(** An identifier outside the four configured ones takes no branch. *)
Lemma getPositionKm_other (trainId : TrainId) (t : Q) :
  trainId <> MEMU_LOCAL -> trainId <> RAJDHANI ->
  trainId <> JANSHATABDI -> trainId <> UTKAL_EXP ->
  getPositionKm trainId t = 0.
Proof.
  intros H1 H2 H3 H4. unfold getPositionKm.
  destruct (String.eqb_spec trainId "MEMU_LOCAL"); [contradiction |].
  destruct (String.eqb_spec trainId "RAJDHANI"); [contradiction |].
  destruct (String.eqb_spec trainId "JANSHATABDI"); [contradiction |].
  destruct (String.eqb_spec trainId "UTKAL_EXP"); [contradiction |].
  reflexivity.
Qed.

(** The identifiers of [trainsConfig]. *)
Lemma configured_ids (tr : TrainSimState) :
  In tr trainsConfig ->
  id tr = MEMU_LOCAL \/ id tr = RAJDHANI \/ id tr = JANSHATABDI \/ id tr = UTKAL_EXP.
Proof.
  simpl. intros [H | [H | [H | [H | []]]]]; subst tr; simpl; auto.
Qed.

(** Every identifier is one of the four configured ones or none of them. *)
Lemma trainId_cases (trainId : TrainId) :
  trainId = MEMU_LOCAL \/ trainId = RAJDHANI \/
  trainId = JANSHATABDI \/ trainId = UTKAL_EXP \/
  (trainId <> MEMU_LOCAL /\ trainId <> RAJDHANI /\
   trainId <> JANSHATABDI /\ trainId <> UTKAL_EXP).
Proof.
  destruct (String.eqb_spec trainId MEMU_LOCAL); [auto |].
  destruct (String.eqb_spec trainId RAJDHANI); [auto |].
  destruct (String.eqb_spec trainId JANSHATABDI); [auto |].
  destruct (String.eqb_spec trainId UTKAL_EXP); [auto |].
  do 4 right. auto.
Qed.

(** Case analysis on the identifier, then on the piece that holds [t]. *)
Ltac by_train trainId :=
  destruct (trainId_cases trainId)
    as [-> | [-> | [-> | [-> | (?Hn1 & ?Hn2 & ?Hn3 & ?Hn4)]]]].

Ltac memu_piece t :=
  destruct (MEMU_cases t)
    as [(? & ?) | [(? & ? & ?) | [(? & ? & ?) | [(? & ? & ?) | (? & ?)]]]].

Ltac rajdhani_piece t :=
  destruct (RAJDHANI_cases t)
    as [(? & ?) | [(? & ? & ?) | [(? & ? & ?) | (? & ?)]]].

Ltac janshatabdi_piece t :=
  destruct (JANSHATABDI_cases t)
    as [(? & ?) | [(? & ? & ?) | [(? & ? & ?) | [(? & ? & ?) | (? & ?)]]]].

Ltac utkal_piece t :=
  destruct (UTKAL_cases t)
    as [(? & ?) | [(? & ? & ?) | [(? & ? & ?) | (? & ?)]]].

Ltac by_piece t :=
  match goal with
  | |- context [getPositionKm MEMU_LOCAL t] => memu_piece t
  | |- context [getPositionKm RAJDHANI t] => rajdhani_piece t
  | |- context [getPositionKm JANSHATABDI t] => janshatabdi_piece t
  | |- context [getPositionKm UTKAL_EXP t] => utkal_piece t
  end.

(** ** Range *)

Lemma getPositionKm_range (trainId : TrainId) (t : Q) :
  0 <= getPositionKm trainId t /\ getPositionKm trainId t <= TOTAL_DISTANCE.
Proof.
  unfold TOTAL_DISTANCE. by_train trainId.
  - by_piece t; lra.
  - by_piece t; lra.
  - by_piece t; lra.
  - by_piece t; lra.
  - rewrite getPositionKm_other by assumption. lra.
Qed.

(** ** A Lipschitz bound: no curve moves faster than 2 km per minute *)

Lemma getPositionKm_lipschitz_le (trainId : TrainId) (t1 t2 : Q) :
  t1 <= t2 ->
  - (2 * (t2 - t1)) <= getPositionKm trainId t2 - getPositionKm trainId t1 /\
  getPositionKm trainId t2 - getPositionKm trainId t1 <= 2 * (t2 - t1).
Proof.
  intros Hle. by_train trainId.
  - by_piece t1; by_piece t2; lra.
  - by_piece t1; by_piece t2; lra.
  - by_piece t1; by_piece t2; lra.
  - by_piece t1; by_piece t2; lra.
  - rewrite !getPositionKm_other by assumption. lra.
Qed.

Lemma getPositionKm_lipschitz (trainId : TrainId) (t1 t2 : Q) :
  Qabs (getPositionKm trainId t2 - getPositionKm trainId t1) <= 2 * Qabs (t2 - t1).
Proof.
  apply Qabs_Qle_condition.
  destruct (Qlt_le_dec t2 t1) as [Hlt | Hle].
  - assert (Hle : t2 <= t1) by lra.
    destruct (getPositionKm_lipschitz_le trainId t2 t1 Hle) as [Ha Hb].
    rewrite (Qabs_neg (t2 - t1)) by lra. lra.
  - destruct (getPositionKm_lipschitz_le trainId t1 t2 Hle) as [Ha Hb].
    rewrite (Qabs_pos (t2 - t1)) by lra. lra.
Qed.

Lemma getPositionKm_continuous (trainId : TrainId) (b : Q) :
  continuous_at (getPositionKm trainId) b.
Proof.
  intros eps Heps. exists (eps * (1 # 2)). split; [lra |].
  intros t Ht.
  apply Qle_lt_trans with (2 * Qabs (t - b)).
  - apply getPositionKm_lipschitz.
  - lra.
Qed.

Lemma continuous_left (f : Q -> Q) (b : Q) :
  continuous_at f b -> left_continuous_at f b.
Proof.
  intros Hc eps Heps. destruct (Hc eps Heps) as (delta & Hd & Hclose).
  exists delta. split; [exact Hd |].
  intros t Hlo Hhi. apply Hclose.
  apply Qabs_Qlt_condition. lra.
Qed.

(** ** The branches against the segment table *)

Import SegmentModel.

Lemma scheduleOf_MEMU :
  scheduleOf MEMU_LOCAL =
    mkPositionModel 0
      [ mkSegment 0 10 (Held 0); mkSegment 10 50 (Linear 0 40);
        mkSegment 50 60 (Held 40); mkSegment 60 85 (Linear 40 65) ] 65.
Proof. reflexivity. Qed.

Lemma scheduleOf_RAJDHANI :
  scheduleOf RAJDHANI =
    mkPositionModel 0
      [ mkSegment 25 30 (Held 0); mkSegment 30 50 (Linear 0 40);
        mkSegment 50 70 (Linear 40 65) ] 65.
Proof. reflexivity. Qed.

Lemma scheduleOf_JANSHATABDI :
  scheduleOf JANSHATABDI =
    mkPositionModel 65
      [ mkSegment 50 60 (Held 65); mkSegment 60 95 (Linear 65 40);
        mkSegment 95 105 (Held 40); mkSegment 105 135 (Linear 40 0) ] 0.
Proof. reflexivity. Qed.

Lemma scheduleOf_UTKAL :
  scheduleOf UTKAL_EXP =
    mkPositionModel 65
      [ mkSegment 60 65 (Held 65); mkSegment 65 95 (Linear 65 40);
        mkSegment 95 125 (Linear 40 0) ] 0.
Proof. reflexivity. Qed.

Lemma scheduleOf_other (trainId : TrainId) :
  trainId <> MEMU_LOCAL -> trainId <> RAJDHANI ->
  trainId <> JANSHATABDI -> trainId <> UTKAL_EXP ->
  scheduleOf trainId = mkPositionModel 0 [] 0.
Proof.
  intros H1 H2 H3 H4. unfold scheduleOf.
  destruct (String.eqb_spec trainId "MEMU_LOCAL"); [contradiction |].
  destruct (String.eqb_spec trainId "RAJDHANI"); [contradiction |].
  destruct (String.eqb_spec trainId "JANSHATABDI"); [contradiction |].
  destruct (String.eqb_spec trainId "UTKAL_EXP"); [contradiction |].
  reflexivity.
Qed.

#[global] Instance clamp_wd : Proper (Qeq ==> Qeq ==> Qeq ==> Qeq) clamp.
Proof.
  intros v v' Hv lo lo' Hlo hi hi' Hhi. unfold clamp.
  apply Q.max_compat; [exact Hlo |]. apply Q.min_compat; assumption.
Qed.

(** Walk the linear scan of [evaluate], deciding each comparison from
    what is known of [t]. *)
Ltac scan :=
  unfold evaluate, first_start, contains;
  cbn [segments before_first after_last List.find seg_start seg_end];
  repeat (match goal with
          | |- context [Qltb ?a ?b] =>
              destruct (Qltb_reflect a b); try (exfalso; lra)
          | |- context [Qleb ?a ?b] =>
              destruct (Qleb_reflect a b); try (exfalso; lra)
          end;
          cbn [andb]).

(** Value of a segment's rule once its interval is known to hold [t]. *)
Ltac rule_value :=
  unfold apply_rule, linear_progress;
  cbn [seg_rule seg_start seg_end];
  repeat match goal with
  | |- context [Qmin ?a ?b] =>
      let v := eval vm_compute in (Qmin a b) in change (Qmin a b) with v
  | |- context [Qmax ?a ?b] =>
      let v := eval vm_compute in (Qmax a b) in change (Qmax a b) with v
  | |- context [Qdiv ?a ?b] =>
      let v := eval vm_compute in (Qdiv a b) in change (Qdiv a b) with v
  end;
  try (rewrite clamp_inside; [| lra | lra]);
  lra.

Lemma getPositionKm_evaluate (trainId : TrainId) (t : Q) :
  getPositionKm trainId t == evaluate (scheduleOf trainId) t.
Proof.
  by_train trainId.
  - rewrite scheduleOf_MEMU. by_piece t; scan; rule_value.
  - rewrite scheduleOf_RAJDHANI. by_piece t; scan; rule_value.
  - rewrite scheduleOf_JANSHATABDI. by_piece t; scan; rule_value.
  - rewrite scheduleOf_UTKAL. by_piece t; scan; rule_value.
  - rewrite scheduleOf_other, getPositionKm_other by assumption. reflexivity.
Qed.

Lemma schedules_well_formed (trainId : TrainId) : well_formed (scheduleOf trainId).
Proof.
  by_train trainId.
  - rewrite scheduleOf_MEMU. unfold well_formed. cbn. repeat split; lra.
  - rewrite scheduleOf_RAJDHANI. unfold well_formed. cbn. repeat split; lra.
  - rewrite scheduleOf_JANSHATABDI. unfold well_formed. cbn. repeat split; lra.
  - rewrite scheduleOf_UTKAL. unfold well_formed. cbn. repeat split; lra.
  - rewrite scheduleOf_other by assumption. unfold well_formed. cbn.
    repeat split; lra.
Qed.

(** Name the segment an [In] hypothesis speaks of, with its rule. *)
Ltac pick_segment Hin Hrule :=
  cbn [segments In] in Hin;
  repeat match type of Hin with
  | _ \/ _ => destruct Hin as [Hin | Hin]
  end;
  try contradiction;
  subst;
  cbn [seg_rule seg_start seg_end] in *;
  try discriminate Hrule;
  injection Hrule as <- <-.

(** On a linear segment of the table the code returns the clamped
    linear rule, which lies between the segment's end values. *)
Lemma linear_segment_value (trainId : TrainId) (t : Q) (s : Segment) (p0 p1 : Q) :
  In s (segments (scheduleOf trainId)) ->
  seg_rule s = Linear p0 p1 ->
  seg_start s <= t -> t < seg_end s ->
  getPositionKm trainId t ==
    clamp (linear_progress s p0 p1 t) (Qmin p0 p1) (Qmax p0 p1) /\
  Qmin p0 p1 <= getPositionKm trainId t /\
  getPositionKm trainId t <= Qmax p0 p1.
Proof.
  intros Hin Hrule Hlo Hhi.
  assert (Hval : getPositionKm trainId t ==
                 clamp (linear_progress s p0 p1 t) (Qmin p0 p1) (Qmax p0 p1)).
  { by_train trainId.
    - rewrite scheduleOf_MEMU in Hin. pick_segment Hin Hrule;
        by_piece t; try (exfalso; lra); rule_value.
    - rewrite scheduleOf_RAJDHANI in Hin. pick_segment Hin Hrule;
        by_piece t; try (exfalso; lra); rule_value.
    - rewrite scheduleOf_JANSHATABDI in Hin. pick_segment Hin Hrule;
        by_piece t; try (exfalso; lra); rule_value.
    - rewrite scheduleOf_UTKAL in Hin. pick_segment Hin Hrule;
        by_piece t; try (exfalso; lra); rule_value.
    - rewrite scheduleOf_other in Hin by assumption. destruct Hin. }
  split; [exact Hval |].
  rewrite Hval. apply clamp_bounds.
  apply Qle_trans with p0; [apply Q.le_min_l | apply Q.le_max_l].
Qed.

(** Within a linear segment the code's value follows the segment's
    direction. *)
Lemma linear_segment_monotone (trainId : TrainId) (s : Segment) (p0 p1 t1 t2 : Q) :
  In s (segments (scheduleOf trainId)) ->
  seg_rule s = Linear p0 p1 ->
  seg_start s <= t1 -> t1 < t2 -> t2 < seg_end s ->
  (p0 <= p1 -> getPositionKm trainId t1 <= getPositionKm trainId t2) /\
  (p1 <= p0 -> getPositionKm trainId t2 <= getPositionKm trainId t1).
Proof.
  intros Hin Hrule Hlo Hlt Hhi.
  by_train trainId.
  - rewrite scheduleOf_MEMU in Hin. pick_segment Hin Hrule;
      by_piece t1; try (exfalso; lra); by_piece t2; try (exfalso; lra);
      split; intros; lra.
  - rewrite scheduleOf_RAJDHANI in Hin. pick_segment Hin Hrule;
      by_piece t1; try (exfalso; lra); by_piece t2; try (exfalso; lra);
      split; intros; lra.
  - rewrite scheduleOf_JANSHATABDI in Hin. pick_segment Hin Hrule;
      by_piece t1; try (exfalso; lra); by_piece t2; try (exfalso; lra);
      split; intros; lra.
  - rewrite scheduleOf_UTKAL in Hin. pick_segment Hin Hrule;
      by_piece t1; try (exfalso; lra); by_piece t2; try (exfalso; lra);
      split; intros; lra.
  - rewrite scheduleOf_other in Hin by assumption. destruct Hin.
Qed.

(* ===================================================================== *)
(** * The scripted scenario *)
(* ===================================================================== *)

(** C1.  The MEMU local (held at 0 until minute 10, linear 0 to 40 on
    [10,50), held at 40 on [50,60)) is exactly at km 0 at t = 0, at km 20
    at t = 30 and at km 40 at t = 55. *)
Theorem memu_sample_positions :
  getPositionKm MEMU_LOCAL 0 == 0 /\
  getPositionKm MEMU_LOCAL 30 == 20 /\
  getPositionKm MEMU_LOCAL 55 == 40.
Proof.
  split; [| split].
  - memu_piece 0; lra.
  - memu_piece 30; lra.
  - memu_piece 55; lra.
Qed.

(** C2, as stated, fails.  Once the MEMU local has left (t > 10) and
    before t = 50 there is no instant at which the Rajdhani's position
    equals the MEMU local's: the curves do not cross before t = 50. *)
Lemma no_crossing_before_50 :
  ~ (exists t, 10 < t /\ t < 50 /\
               getPositionKm RAJDHANI t == getPositionKm MEMU_LOCAL t).
Proof.
  intros (t & Hlo & Hhi & Heq).
  memu_piece t; try lra; rajdhani_piece t; lra.
Qed.

(** C2, amended.  The Rajdhani stays strictly behind the MEMU local as
    long as the latter moves towards Akaltara (10 < t < 50); the two
    curves meet exactly at t = 50, both at km 40; the Rajdhani is
    strictly ahead afterwards (50 < t < 85); and both curves are
    continuous at every instant. *)
Theorem rajdhani_meets_memu_at_50 :
  (forall t, 10 < t -> t < 50 ->
     getPositionKm RAJDHANI t < getPositionKm MEMU_LOCAL t) /\
  getPositionKm RAJDHANI 50 == 40 /\
  getPositionKm MEMU_LOCAL 50 == 40 /\
  (forall t, 50 < t -> t < 85 ->
     getPositionKm MEMU_LOCAL t < getPositionKm RAJDHANI t) /\
  (forall b, continuous_at (getPositionKm RAJDHANI) b) /\
  (forall b, continuous_at (getPositionKm MEMU_LOCAL) b).
Proof.
  split; [| split; [| split; [| split; [| split]]]].
  - intros t Hlo Hhi.
    memu_piece t; try lra; rajdhani_piece t; lra.
  - rajdhani_piece 50; lra.
  - memu_piece 50; lra.
  - intros t Hlo Hhi.
    memu_piece t; try lra; rajdhani_piece t; lra.
  - intro b. apply getPositionKm_continuous.
  - intro b. apply getPositionKm_continuous.
Qed.

Lemma rajdhani_meets_memu_at_50_witness :
  getPositionKm RAJDHANI 40 < getPositionKm MEMU_LOCAL 40 /\
  getPositionKm MEMU_LOCAL 55 < getPositionKm RAJDHANI 55.
Proof.
  split.
  - apply (proj1 rajdhani_meets_memu_at_50 40); reflexivity.
  - apply (proj1 (proj2 (proj2 (proj2 rajdhani_meets_memu_at_50))) 55); reflexivity.
Defined.



(** C4.  For every train identifier and every time (negative, within
    or beyond the schedule) the position lies in [0, TOTAL_DISTANCE] =
    [0, 65]; and at a time within a linear segment the position is the
    linear rule clamped to
    [min(startProgress, endProgress), max(startProgress, endProgress)],
    hence lies between the two. *)
Theorem position_in_range_and_clamped (trainId : TrainId) (t : Q) :
  (0 <= getPositionKm trainId t /\ getPositionKm trainId t <= TOTAL_DISTANCE) /\
  (forall s p0 p1,
     In s (segments (scheduleOf trainId)) ->
     seg_rule s = Linear p0 p1 ->
     seg_start s <= t -> t < seg_end s ->
     getPositionKm trainId t ==
       clamp (linear_progress s p0 p1 t) (Qmin p0 p1) (Qmax p0 p1) /\
     Qmin p0 p1 <= getPositionKm trainId t /\
     getPositionKm trainId t <= Qmax p0 p1).
Proof.
  split.
  - apply getPositionKm_range.
  - intros s p0 p1. apply linear_segment_value.
Qed.

Lemma position_in_range_and_clamped_witness :
  Qmin 65 40 <= getPositionKm JANSHATABDI 77 /\
  getPositionKm JANSHATABDI 77 <= Qmax 65 40.
Proof.
  apply (proj2 (position_in_range_and_clamped JANSHATABDI 77)
           (mkSegment 60 95 (Linear 65 40)) 65 40).
  - simpl. right. left. reflexivity.
  - reflexivity.
  - simpl. discriminate.
  - reflexivity.
Defined.

(** C5.  Each of the four configured trains has a segment sequence
    that is contiguous in time (each segment ends where the next one
    starts) and chained in progress (each starts at the progress the
    previous one ended at); the code computes exactly what that
    sequence says; and at every boundary time [b] the value approached
    from the left is the value at [b] (indeed the curve is continuous
    at [b]). *)
Theorem segments_contiguous_and_continuous (tr : TrainSimState) :
  In tr trainsConfig ->
  segments (scheduleOf (id tr)) <> [] /\
  well_formed (scheduleOf (id tr)) /\
  (forall t, getPositionKm (id tr) t == evaluate (scheduleOf (id tr)) t) /\
  (forall b, In b (boundaries (segments (scheduleOf (id tr)))) ->
     left_continuous_at (getPositionKm (id tr)) b /\
     continuous_at (getPositionKm (id tr)) b).
Proof.
  intros Hin. split; [| split; [| split]].
  - destruct (configured_ids tr Hin) as [-> | [-> | [-> | ->]]]; discriminate.
  - apply schedules_well_formed.
  - intro t. apply getPositionKm_evaluate.
  - intros b _. split.
    + apply continuous_left, getPositionKm_continuous.
    + apply getPositionKm_continuous.
Qed.

Lemma segments_contiguous_and_continuous_witness :
  well_formed (scheduleOf JANSHATABDI) /\
  left_continuous_at (getPositionKm JANSHATABDI) 95.
Proof.
  pose proof (segments_contiguous_and_continuous
                (mkTrainSimState JANSHATABDI "Janshatabdi (+30m)" "bg-red-400" 1)) as H.
  destruct H as (_ & Hwf & _ & Hb).
  - simpl. right. right. left. reflexivity.
  - split; [exact Hwf |].
    apply (Hb 95). simpl. right. right. left. reflexivity.
Defined.

(** C6.  For two times [t1 < t2] within one linear segment of a train,
    the position at [t1] is at most the position at [t2] when the
    segment's progress increases, and at least that when it decreases. *)
Theorem monotone_within_linear_segment
    (trainId : TrainId) (s : Segment) (p0 p1 t1 t2 : Q) :
  In s (segments (scheduleOf trainId)) ->
  seg_rule s = Linear p0 p1 ->
  seg_start s <= t1 -> t1 < t2 -> t2 < seg_end s ->
  (p0 <= p1 -> getPositionKm trainId t1 <= getPositionKm trainId t2) /\
  (p1 <= p0 -> getPositionKm trainId t2 <= getPositionKm trainId t1).
Proof. apply linear_segment_monotone. Qed.

Lemma monotone_within_linear_segment_witness :
  getPositionKm UTKAL_EXP 80 <= getPositionKm UTKAL_EXP 70 /\
  getPositionKm RAJDHANI 35 <= getPositionKm RAJDHANI 45.
Proof.
  split.
  - apply (monotone_within_linear_segment UTKAL_EXP
             (mkSegment 65 95 (Linear 65 40)) 65 40 70 80).
    + simpl. right. left. reflexivity.
    + reflexivity.
    + simpl. discriminate.
    + reflexivity.
    + reflexivity.
    + discriminate.
  - apply (monotone_within_linear_segment RAJDHANI
             (mkSegment 30 50 (Linear 0 40)) 0 40 35 45).
    + simpl. right. left. reflexivity.
    + reflexivity.
    + simpl. discriminate.
    + reflexivity.
    + reflexivity.
    + discriminate.
Defined.

(** C9.  [getPositionKm] is total: for every identifier and every time
    (negative or past the horizon included) it returns a number, which
    lies within the route; for an identifier that is none of the four
    configured ones it returns the fallback 0. *)
Theorem getPositionKm_total (trainId : TrainId) (t : Q) :
  (exists km, getPositionKm trainId t = km /\ 0 <= km /\ km <= TOTAL_DISTANCE) /\
  (~ In trainId (List.map id trainsConfig) -> getPositionKm trainId t = 0).
Proof.
  split.
  - exists (getPositionKm trainId t). split; [reflexivity |].
    apply getPositionKm_range.
  - intros Hnot. apply getPositionKm_other; intros ->; apply Hnot; simpl; auto.
Qed.

Lemma getPositionKm_total_witness :
  getPositionKm "VANDE_BHARAT" (-5) = 0 /\ getPositionKm "" 200 = 0.
Proof.
  split.
  - apply (proj2 (getPositionKm_total "VANDE_BHARAT" (-5))).
    simpl. intros [H | [H | [H | [H | []]]]]; discriminate H.
  - apply (proj2 (getPositionKm_total "" 200)).
    simpl. intros [H | [H | [H | [H | []]]]]; discriminate H.
Defined.

(* ===================================================================== *)
(** * The overlay: train markers *)
(* ===================================================================== *)

Local Close Scope Q_scope.

Section TrainMarkerProperties.

Variable numberToString : Q -> string.

Lemma trainFeatures_app (l1 l2 : list TrainData) :
  trainFeatures numberToString (l1 ++ l2) =
  trainFeatures numberToString l1 ++ trainFeatures numberToString l2.
Proof.
  unfold trainFeatures. rewrite List.filter_app. apply List.map_app.
Qed.

Lemma trainFeatures_cons (t : TrainData) (l : list TrainData) :
  trainFeatures numberToString (t :: l) =
  if hasCoordinates t
  then toFeature numberToString t :: trainFeatures numberToString l
  else trainFeatures numberToString l.
Proof.
  unfold trainFeatures. simpl. destruct (hasCoordinates t); reflexivity.
Qed.

(** The rendered set is exactly the image of the records that pass
    the filter. *)
Lemma trainFeatures_In (f : Feature) (trains : list TrainData) :
  In f (trainFeatures numberToString trains) <->
  exists t, In t trains /\ hasCoordinates t = true /\ f = toFeature numberToString t.
Proof.
  unfold trainFeatures. rewrite List.in_map_iff. split.
  - intros (t & <- & Hin). apply List.filter_In in Hin as [Hin Hok]. eauto.
  - intros (t & Hin & Hok & ->). exists t. split; [reflexivity |].
    apply List.filter_In. auto.
Qed.

Lemma falsy_coordinate_filtered (t : TrainData) :
  toBoolean (field t "current_lat") = false \/
  toBoolean (field t "current_lon") = false ->
  hasCoordinates t = false.
Proof.
  unfold hasCoordinates, jsAnd. intros [H | H].
  - rewrite H. exact H.
  - destruct (toBoolean (field t "current_lat")) eqn:E; [exact H | exact E].
Qed.

Lemma truthy_coordinates_kept (t : TrainData) :
  toBoolean (field t "current_lat") = true ->
  toBoolean (field t "current_lon") = true ->
  hasCoordinates t = true.
Proof.
  unfold hasCoordinates, jsAnd. intros Hlat Hlon. rewrite Hlat. exact Hlon.
Qed.

(** C8, amended.  An entity of the snapshot whose latitude or longitude
    is falsy (absent, null, not a number, 0, empty or false) adds no
    feature: the rendered set is the one of the snapshot without it.
    The pass itself goes through (the source receives that set), and
    every other entity whose two coordinates are truthy is rendered, as
    a point at its longitude and latitude carrying its fields and its
    label; the values of truthy coordinates are not checked. *)
Theorem entity_without_coordinates_excluded
    (l1 l2 : list TrainData) (t : TrainData) :
  toBoolean (field t "current_lat") = false \/
  toBoolean (field t "current_lon") = false ->
  trainFeatures numberToString (l1 ++ t :: l2) =
    trainFeatures numberToString (l1 ++ l2) /\
  (forall m old,
     sources m !! "trains-source" = Some old ->
     updateTrainMarkers numberToString (Some m) (l1 ++ t :: l2) =
       Some (setData m "trains-source" (trainFeatures numberToString (l1 ++ l2)))) /\
  (forall u,
     In u (l1 ++ l2) ->
     toBoolean (field u "current_lat") = true ->
     toBoolean (field u "current_lon") = true ->
     In (mkFeature
           (Point (field u "current_lon") (field u "current_lat"))
           (<["train_label" :=
                VStr (toString numberToString (field u "train_no") ++ " " ++
                      toString numberToString (field u "train_name"))]> u))
        (trainFeatures numberToString (l1 ++ t :: l2))).
Proof.
  intros Hfalsy.
  assert (Heq : trainFeatures numberToString (l1 ++ t :: l2) =
                trainFeatures numberToString (l1 ++ l2)).
  { rewrite !trainFeatures_app, trainFeatures_cons.
    rewrite (falsy_coordinate_filtered t Hfalsy). reflexivity. }
  split; [exact Heq | split].
  - intros m old Hsrc. unfold updateTrainMarkers. rewrite Hsrc, Heq. reflexivity.
  - intros u Hin Hlat Hlon. rewrite Heq. apply trainFeatures_In.
    exists u. split; [exact Hin | split; [| reflexivity]].
    apply truthy_coordinates_kept; assumption.
Qed.

End TrainMarkerProperties.

(** C8, as stated, fails.  A record whose latitude is 999 has no valid
    spatial coordinates, yet it is not excluded: the snapshot made of it
    alone is rendered as one feature, a point at that latitude. *)
Lemma invalid_coordinates_rendered :
  validCoordinates misplacedTrain = false /\
  List.map geometry (trainFeatures (fun _ => "0"%string) [misplacedTrain]) =
    [Point (VNum (8214 # 100)) (VNum 999)] /\
  trainFeatures (fun _ => "0"%string) [misplacedTrain] <>
    trainFeatures (fun _ => "0"%string) [].
Proof.
  split; [vm_compute; reflexivity | split; [vm_compute; reflexivity |]].
  intros H. apply (f_equal (@length Feature)) in H. vm_compute in H. discriminate H.
Qed.

Lemma entity_without_coordinates_excluded_witness :
  trainFeatures (fun _ => "0"%string) ([locatedTrain] ++ unlocatedTrain :: []) =
  trainFeatures (fun _ => "0"%string) ([locatedTrain] ++ []).
Proof.
  apply (entity_without_coordinates_excluded
           (fun _ => "0"%string) [locatedTrain] [] unlocatedTrain).
  left. vm_compute. reflexivity.
Defined.

(* ===================================================================== *)
(** * The overlay: the blink timer *)
(* ===================================================================== *)

(** ** [setPaintProperty] touches one paint property of one layer *)

Lemma setPaintProperty_sources (m : MapState) (layerId key : string) (e : Expr) :
  sources (setPaintProperty m layerId key e) = sources m /\
  center (setPaintProperty m layerId key e) = center m /\
  zoom (setPaintProperty m layerId key e) = zoom m.
Proof.
  unfold setPaintProperty. destruct (layers m !! layerId); auto.
Qed.

Lemma setPaintProperty_other_layer (m : MapState) (layerId key other : string) (e : Expr) :
  other ≠ layerId ->
  layers (setPaintProperty m layerId key e) !! other = layers m !! other.
Proof.
  intros Hne. unfold setPaintProperty.
  destruct (layers m !! layerId); [| reflexivity].
  simpl. apply lookup_insert_ne. congruence.
Qed.

Lemma setPaintProperty_layer (m : MapState) (layerId key : string) (e : Expr) (l : Layer) :
  layers m !! layerId = Some l ->
  layers (setPaintProperty m layerId key e) !! layerId =
    Some (mkLayer (layer_type l) (layer_source l) (layout l) (<[key := e]> (paint l))).
Proof.
  intros Hl. unfold setPaintProperty. rewrite Hl. simpl.
  apply lookup_insert_eq.
Qed.

(** ** The opacity expression *)

Lemma opacityExpr_not_held (v : bool) (props : gmap string jsval) :
  props !! "status" ≠ Some (VStr "Held") ->
  evalExpr props (opacityExpr v) = VNum 1.
Proof.
  intros Hst. unfold opacityExpr. cbn [evalExpr].
  destruct (props !! "status") as [x |] eqn:E; simpl; [| reflexivity].
  destruct x; simpl; try reflexivity.
  destruct (String.eqb_spec s "Held") as [-> | Hne]; [| reflexivity].
  contradiction Hst. reflexivity.
Qed.

Lemma opacityExpr_held (v : bool) (props : gmap string jsval) :
  props !! "status" = Some (VStr "Held") ->
  evalExpr props (opacityExpr v) = VNum (if v then 1 else 2 # 10)%Q.
Proof.
  intros Hst. unfold opacityExpr. cbn [evalExpr]. rewrite Hst. reflexivity.
Qed.

(** ** One firing *)

Lemma blinkTick_guard (st : BlinkState) :
  (mapRef st = None \/
   exists m, mapRef st = Some m /\ getLayer m "trains-layer" = None) ->
  blinkTick st = st.
Proof.
  unfold blinkTick. intros [H | (m & Hm & Hl)].
  - rewrite H. reflexivity.
  - rewrite Hm, Hl. reflexivity.
Qed.

Lemma blinkTick_fires (st : BlinkState) (m : MapState) (l : Layer) :
  mapRef st = Some m -> layers m !! "trains-layer" = Some l ->
  blinkTick st =
    mkBlinkState
      (Some (setPaintProperty m "trains-layer" "circle-opacity"
               (opacityExpr (visible st))))
      (negb (visible st)).
Proof.
  intros Hm Hl. unfold blinkTick, getLayer. rewrite Hm, Hl. reflexivity.
Qed.

Lemma blinkTick_ready (st : BlinkState) :
  ready st ->
  ready (blinkTick st) /\
  visible (blinkTick st) = negb (visible st) /\
  shownOpacity heldProps (blinkTick st) =
    Some (VNum (if visible st then 1 else 2 # 10)%Q).
Proof.
  intros (m & l & Hm & Hl). rewrite (blinkTick_fires st m l Hm Hl).
  split; [| split].
  - eexists _, _. split; [reflexivity |]. simpl.
    apply setPaintProperty_layer. exact Hl.
  - reflexivity.
  - unfold shownOpacity, circleOpacity, getLayer. simpl.
    rewrite (setPaintProperty_layer m _ _ _ l Hl). simpl.
    rewrite lookup_insert_eq.
    apply (f_equal Some), opacityExpr_held. reflexivity.
Qed.

(** ** Several firings *)

Lemma blinkTicks_succ (n : nat) (st : BlinkState) :
  blinkTicks (S n) st = blinkTick (blinkTicks n st).
Proof.
  revert st. induction n as [| n IH]; intro st; [reflexivity |].
  change (blinkTicks (S (S n)) st) with (blinkTicks (S n) (blinkTick st)).
  rewrite IH. reflexivity.
Qed.

Lemma blinkTicks_ready (n : nat) (st : BlinkState) :
  ready st ->
  ready (blinkTicks n st) /\
  visible (blinkTicks n st) = if Nat.even n then visible st else negb (visible st).
Proof.
  intros Hr. induction n as [| n [IHr IHv]].
  - split; [exact Hr | reflexivity].
  - rewrite blinkTicks_succ.
    destruct (blinkTick_ready _ IHr) as (Hr' & Hv' & _).
    split; [exact Hr' |].
    rewrite Hv', IHv, Nat.even_succ, <- Nat.negb_even.
    destruct (Nat.even n), (visible st); reflexivity.
Qed.

Lemma blinkStart_ready (m : MapState) (l : Layer) (st : BlinkState) :
  blinkStart (Some m) = Some st ->
  layers m !! "trains-layer" = Some l ->
  ready st /\ visible st = true /\ mapRef st = Some m.
Proof.
  intros Hs Hl. injection Hs as <-. split; [| split]; try reflexivity.
  exists m, l. split; [reflexivity | exact Hl].
Qed.

(** The opacity a held feature shows after the firing number [n + 1] of
    a timer started with [visible = true]. *)
Lemma held_opacity_after (n : nat) (st : BlinkState) :
  ready st -> visible st = true ->
  shownOpacity heldProps (blinkTicks (S n) st) =
    Some (VNum (if Nat.even n then 1 else 2 # 10)%Q).
Proof.
  intros Hr Hv. rewrite blinkTicks_succ.
  destruct (blinkTicks_ready n st Hr) as [Hrn Hvn].
  destruct (blinkTick_ready _ Hrn) as (_ & _ & Hop).
  rewrite Hop, Hvn, Hv. destruct (Nat.even n); reflexivity.
Qed.

(** C7, as stated, fails.  On the surface as the load handler leaves it,
    when 2 x 500 ms have elapsed the timer has fired twice and a held
    marker has been shown on, on, off: one change, ending off, not
    on, off, on.  (After one firing only: on, on.) *)
Lemma blink_two_periods_not_on_off_on :
  exists st,
    blinkStart (Some (loadedMap "india_db")) = Some st /\
    visualTrace heldProps (firings (2 * BLINK_INTERVAL_MS)) st = [true; true; false] /\
    countToggles (visualTrace heldProps (firings (2 * BLINK_INTERVAL_MS)) st) = 1%nat /\
    visualTrace heldProps (firings (2 * BLINK_INTERVAL_MS)) st <> [true; false; true] /\
    visualTrace heldProps 1 st = [true; true].
Proof.
  eexists. split; [reflexivity |].
  assert (H : visualTrace heldProps (firings (2 * BLINK_INTERVAL_MS))
                (mkBlinkState (Some (loadedMap "india_db")) true)
              = [true; true; false]) by (vm_compute; reflexivity).
  rewrite H. split; [reflexivity | split; [reflexivity | split]].
  - discriminate.
  - vm_compute. reflexivity.
Qed.

(** C7, amended.  With the layer present, when 2 x 500 ms have elapsed
    the timer has fired twice and its [visible] flag has toggled exactly
    twice (true, false, true).  The opacity a held marker is shown with
    is 1 after the first firing, 0.2 after the second and 1 after the
    third (firing [n + 1] installs 1 when [n] is even, 0.2 when odd).
    Starting from the full opacity of the load handler, a held marker
    is thus shown on, on, off over two periods (one change) and
    on, on, off, on over three: on, off, on is complete after three
    periods. *)
Theorem blink_flag_toggles_twice (m : MapState) (l : Layer) (st : BlinkState) :
  blinkStart (Some m) = Some st ->
  layers m !! "trains-layer" = Some l ->
  firings (2 * BLINK_INTERVAL_MS) = 2%nat /\
  List.map visible (blinkTrace (firings (2 * BLINK_INTERVAL_MS)) st) = [true; false; true] /\
  countToggles (List.map visible (blinkTrace (firings (2 * BLINK_INTERVAL_MS)) st)) = 2%nat /\
  (forall n, shownOpacity heldProps (blinkTicks (S n) st) =
             Some (VNum (if Nat.even n then 1 else 2 # 10)%Q)) /\
  (circleOpacity m heldProps = Some (VNum 1) ->
     visualTrace heldProps (firings (2 * BLINK_INTERVAL_MS)) st = [true; true; false] /\
     visualTrace heldProps (firings (3 * BLINK_INTERVAL_MS)) st = [true; true; false; true] /\
     countToggles (visualTrace heldProps (firings (3 * BLINK_INTERVAL_MS)) st) = 2%nat).
Proof.
  intros Hs Hl.
  destruct (blinkStart_ready m l st Hs Hl) as (Hr & Hv & Hm).
  assert (Hop : forall n, shownOpacity heldProps (blinkTicks (S n) st) =
                          Some (VNum (if Nat.even n then 1 else 2 # 10)%Q))
    by (intro n; apply held_opacity_after; assumption).
  assert (Hflags : List.map visible (blinkTrace 2 st) = [true; false; true]).
  { cbn [blinkTrace List.map].
    destruct (blinkTick_ready st Hr) as (Hr1 & Hv1 & _).
    destruct (blinkTick_ready _ Hr1) as (_ & Hv2 & _).
    rewrite Hv2, Hv1, Hv. reflexivity. }
  change (firings (2 * BLINK_INTERVAL_MS)) with 2%nat.
  change (firings (3 * BLINK_INTERVAL_MS)) with 3%nat.
  split; [reflexivity | split; [exact Hflags | split; [| split; [exact Hop |]]]].
  - rewrite Hflags. reflexivity.
  - intros Hinit.
    assert (H0 : shownOpacity heldProps st = Some (VNum 1))
      by (unfold shownOpacity; rewrite Hm; exact Hinit).
    pose proof (Hop 0%nat) as H1. pose proof (Hop 1%nat) as H2.
    pose proof (Hop 2%nat) as H3.
    change (blinkTicks 1 st) with (blinkTick st) in H1.
    change (blinkTicks 2 st) with (blinkTick (blinkTick st)) in H2.
    change (blinkTicks 3 st) with (blinkTick (blinkTick (blinkTick st))) in H3.
    cbn [Nat.even] in H1, H2, H3.
    unfold visualTrace. cbn [blinkTrace List.map].
    rewrite H0, H1, H2, H3. split; [reflexivity | split; reflexivity].
Qed.

Lemma blink_flag_toggles_twice_witness :
  List.map visible
    (blinkTrace (firings (2 * BLINK_INTERVAL_MS))
       (mkBlinkState (Some (loadedMap "cg_db")) true)) = [true; false; true].
Proof.
  refine (proj1 (proj2 (blink_flag_toggles_twice (loadedMap "cg_db") _ _ _ _))).
  - reflexivity.
  - vm_compute. reflexivity.
Defined.

(** C10.  A firing of the blink timer leaves the state as it is when
    there is no map or no ['trains-layer'].  Otherwise it changes
    nothing but the ['circle-opacity'] paint property of the
    ['trains-layer']: the camera, the data of every source (the feature
    collections), every other layer, and the type, source, layout and
    other paint properties of the ['trains-layer'] are as before.  The
    expression it installs evaluates to 1 on every feature whose status
    is not ['Held'], and to 1 or 0.2 (by the [visible] flag) on a held
    one. *)
Theorem blinkTick_changes_only_opacity (st : BlinkState) :
  ((mapRef st = None \/
    exists m, mapRef st = Some m /\ getLayer m "trains-layer" = None) ->
   blinkTick st = st) /\
  (forall m l,
     mapRef st = Some m -> getLayer m "trains-layer" = Some l ->
     exists m' l',
       mapRef (blinkTick st) = Some m' /\
       sources m' = sources m /\
       center m' = center m /\
       zoom m' = zoom m /\
       (forall other, other ≠ "trains-layer" ->
          layers m' !! other = layers m !! other) /\
       getLayer m' "trains-layer" = Some l' /\
       layer_type l' = layer_type l /\
       layer_source l' = layer_source l /\
       layout l' = layout l /\
       (forall key, key ≠ "circle-opacity" -> paint l' !! key = paint l !! key) /\
       paint l' !! "circle-opacity" = Some (opacityExpr (visible st))) /\
  (forall v props,
     props !! "status" ≠ Some (VStr "Held") ->
     evalExpr props (opacityExpr v) = VNum 1) /\
  (forall v props,
     props !! "status" = Some (VStr "Held") ->
     evalExpr props (opacityExpr v) = VNum (if v then 1 else 2 # 10)%Q).
Proof.
  split; [apply blinkTick_guard | split; [| split]].
  - intros m l Hm Hl. unfold getLayer in Hl.
    rewrite (blinkTick_fires st m l Hm Hl). cbn [mapRef].
    eexists _, _. split; [reflexivity |].
    destruct (setPaintProperty_sources m "trains-layer" "circle-opacity"
                (opacityExpr (visible st))) as (Hs & Hc & Hz).
    split; [exact Hs | split; [exact Hc | split; [exact Hz |]]].
    split; [intros other Hne; apply setPaintProperty_other_layer; exact Hne |].
    split; [unfold getLayer; apply setPaintProperty_layer; exact Hl |].
    cbn [layer_type layer_source layout paint].
    split; [reflexivity | split; [reflexivity | split; [reflexivity |]]].
    split.
    + intros key Hne. apply lookup_insert_ne. congruence.
    + apply lookup_insert_eq.
  - intros v props. apply opacityExpr_not_held.
  - intros v props. apply opacityExpr_held.
Qed.

Lemma blinkTick_changes_only_opacity_witness :
  (exists m' l',
     mapRef (blinkTick (mkBlinkState (Some (loadedMap "cg_db")) true)) = Some m' /\
     sources m' = sources (loadedMap "cg_db") /\
     getLayer m' "trains-layer" = Some l' /\
     paint l' !! "circle-opacity" = Some (opacityExpr true)) /\
  evalExpr locatedTrain (opacityExpr false) = VNum 1 /\
  blinkTick (mkBlinkState None true) = mkBlinkState None true.
Proof.
  split; [| split].
  - destruct (proj1 (proj2 (blinkTick_changes_only_opacity
                              (mkBlinkState (Some (loadedMap "cg_db")) true)))
                (loadedMap "cg_db")
                trainsLayer
                eq_refl)
      as (m' & l' & H).
    + vm_compute. reflexivity.
    + exists m', l'. intuition.
  - apply (proj1 (proj2 (proj2
             (blinkTick_changes_only_opacity (mkBlinkState None false))))).
    vm_compute. discriminate.
  - apply (proj1 (blinkTick_changes_only_opacity (mkBlinkState None true))).
    left. reflexivity.
Defined.

(* ===================================================================== *)
(** * Further properties of the scripted scenario *)
(* ===================================================================== *)

Local Open Scope Q_scope.

(** X1.  No train ever reverses: between two times [t1 <= t2] the
    MEMU local and the Rajdhani do not move back towards Bilaspur, the
    Janshatabdi and the Utkal express do not move back towards Champa,
    across all segments and outside the schedule. *)
Theorem trains_never_reverse (t1 t2 : Q) :
  t1 <= t2 ->
  getPositionKm MEMU_LOCAL t1 <= getPositionKm MEMU_LOCAL t2 /\
  getPositionKm RAJDHANI t1 <= getPositionKm RAJDHANI t2 /\
  getPositionKm JANSHATABDI t2 <= getPositionKm JANSHATABDI t1 /\
  getPositionKm UTKAL_EXP t2 <= getPositionKm UTKAL_EXP t1.
Proof.
  intros Hle. split; [| split; [| split]].
  - memu_piece t1; memu_piece t2; lra.
  - rajdhani_piece t1; rajdhani_piece t2; lra.
  - janshatabdi_piece t1; janshatabdi_piece t2; lra.
  - utkal_piece t1; utkal_piece t2; lra.
Qed.

Lemma trains_never_reverse_witness :
  getPositionKm MEMU_LOCAL 49 <= getPositionKm MEMU_LOCAL 61 /\
  getPositionKm JANSHATABDI 120 <= getPositionKm JANSHATABDI 70.
Proof.
  split.
  - apply (trains_never_reverse 49 61). discriminate.
  - apply (trains_never_reverse 70 120). discriminate.
Defined.

(** X2.  The second overtake of the scenario.  From minute 60 to minute
    95 the Utkal express is never nearer to Bilaspur than the
    Janshatabdi, and from minute 61 to minute 94 it is behind by more
    than a tenth of a km; the two are exactly at km 40 at t = 95; from
    minute 95 to minute 135 the Janshatabdi is never nearer to Bilaspur
    than the Utkal express, and from minute 96 to minute 134 the Utkal
    express is ahead by more than one km. *)
Theorem utkal_passes_janshatabdi_at_95 :
  (forall t, 60 <= t -> t <= 95 ->
     getPositionKm JANSHATABDI t <= getPositionKm UTKAL_EXP t) /\
  (forall t, 61 <= t -> t <= 94 ->
     getPositionKm JANSHATABDI t + (1 # 10) < getPositionKm UTKAL_EXP t) /\
  getPositionKm JANSHATABDI 95 == 40 /\
  getPositionKm UTKAL_EXP 95 == 40 /\
  (forall t, 95 <= t -> t <= 135 ->
     getPositionKm UTKAL_EXP t <= getPositionKm JANSHATABDI t) /\
  (forall t, 96 <= t -> t <= 134 ->
     getPositionKm UTKAL_EXP t + 1 < getPositionKm JANSHATABDI t).
Proof.
  split; [| split; [| split; [| split; [| split]]]].
  - intros t Hlo Hhi. janshatabdi_piece t; try lra; utkal_piece t; lra.
  - intros t Hlo Hhi. janshatabdi_piece t; try lra; utkal_piece t; lra.
  - janshatabdi_piece 95; lra.
  - utkal_piece 95; lra.
  - intros t Hlo Hhi. janshatabdi_piece t; try lra; utkal_piece t; lra.
  - intros t Hlo Hhi. janshatabdi_piece t; try lra; utkal_piece t; lra.
Qed.

Lemma utkal_passes_janshatabdi_at_95_witness :
  getPositionKm JANSHATABDI 80 + (1 # 10) < getPositionKm UTKAL_EXP 80 /\
  getPositionKm UTKAL_EXP 100 + 1 < getPositionKm JANSHATABDI 100.
Proof.
  split.
  - apply (proj1 (proj2 utkal_passes_janshatabdi_at_95) 80); discriminate.
  - apply (proj2 (proj2 (proj2 (proj2 (proj2 utkal_passes_janshatabdi_at_95)))) 100);
      discriminate.
Defined.

(** X3.  The loop of the clock cuts no movement: whatever the
    identifier, from minute 135 on a train stands where it stands at
    the horizon 150, and up to minute 10 it stands where it stands at
    minute 0. *)
Theorem scenario_within_horizon (trainId : TrainId) (t : Q) :
  (135 <= t -> getPositionKm trainId t == getPositionKm trainId 150) /\
  (t <= 10 -> getPositionKm trainId t == getPositionKm trainId 0).
Proof.
  by_train trainId.
  - split; intro; memu_piece t; try lra; memu_piece 150; try lra;
      memu_piece 0; lra.
  - split; intro; rajdhani_piece t; try lra; rajdhani_piece 150; try lra;
      rajdhani_piece 0; lra.
  - split; intro; janshatabdi_piece t; try lra; janshatabdi_piece 150; try lra;
      janshatabdi_piece 0; lra.
  - split; intro; utkal_piece t; try lra; utkal_piece 150; try lra;
      utkal_piece 0; lra.
  - rewrite !getPositionKm_other by assumption. split; intro; reflexivity.
Qed.

Lemma scenario_within_horizon_witness :
  getPositionKm JANSHATABDI 140 == getPositionKm JANSHATABDI 150 /\
  getPositionKm MEMU_LOCAL 10 == getPositionKm MEMU_LOCAL 0.
Proof.
  split.
  - apply (proj1 (scenario_within_horizon JANSHATABDI 140)). discriminate.
  - apply (proj2 (scenario_within_horizon MEMU_LOCAL 10)). discriminate.
Defined.

(** ** The clock over many firings *)

Lemma advanceSimTime_range (speed prev : Q) :
  0 <= prev -> 0 < speed ->
  0 <= advanceSimTime speed prev /\ advanceSimTime speed prev <= 150.
Proof.
  intros Hlo Hs.
  pose proof (jsAdd_nonneg prev (jsMul speed (roundDouble (2 # 10))) Hlo
                (jsMul_nonneg speed (roundDouble (2 # 10)) (Qlt_le_weak _ _ Hs)
                   (roundDouble_nonneg (2 # 10) ltac:(discriminate)))) as Hnext.
  unfold advanceSimTime. cbv zeta.
  destruct (Qgtb_reflect (jsAdd prev (jsMul speed (roundDouble (2 # 10)))) 150); lra.
Qed.

Lemma nth_simTimeTrace (total n : nat) (speed prev : Q) :
  (n <= total)%nat ->
  nth n (simTimeTrace total speed prev) 0 = advanceSimTimes n speed prev.
Proof.
  revert n prev. induction total as [| total IH]; intros n prev Hn.
  - replace n with 0%nat by lia. reflexivity.
  - destruct n as [| n]; [reflexivity |].
    cbn [simTimeTrace nth advanceSimTimes]. apply IH. lia.
Qed.

Lemma length_simTimeTrace (total : nat) (speed prev : Q) :
  length (simTimeTrace total speed prev) = S total.
Proof.
  revert prev. induction total as [| total IH]; intro prev; [reflexivity |].
  cbn [simTimeTrace length]. rewrite IH. reflexivity.
Qed.

Lemma In_combine_seq (l : list Q) (start n : nat) :
  (n < length l)%nat ->
  In ((start + n)%nat, nth n l 0%Q) (combine (seq start (length l)) l).
Proof.
  revert start n. induction l as [| x l IH]; intros start n Hn; [simpl in Hn; lia |].
  destruct n as [| n]; cbn [length seq combine nth].
  - left. f_equal. lia.
  - right. replace (start + S n)%nat with (S start + n)%nat by lia.
    apply IH. simpl in Hn. lia.
Qed.

(** A property of the firing number and the time shown, checked along
    a whole run. *)
Lemma checked_along_run (check : nat * Q -> bool) (total n : nat) (speed : Q) :
  forallb check (combine (seq 0 (S total)) (simTimeTrace total speed 0)) = true ->
  (n <= total)%nat ->
  check (n, advanceSimTimes n speed 0) = true.
Proof.
  intros Hall Hn. rewrite forallb_forall in Hall. apply Hall.
  rewrite <- (nth_simTimeTrace total n speed 0 Hn).
  rewrite <- (length_simTimeTrace total speed 0).
  apply (In_combine_seq (simTimeTrace total speed 0) 0 n).
  rewrite length_simTimeTrace. lia.
Qed.

(** X4.  The loop of the clock, started at 0, at each of the three
    speeds.  At 5x the clock shows the whole minute [n] after [n]
    firings up to 150 itself and is back at 0 at firing 151; at 10x it
    shows [2 n] up to 150 and is back at 0 at firing 76.  At 1x the
    rounded sums drift from [n * 0.2] (by less than 2^-39): the clock
    stays strictly between 0 and 150 for 749 firings and is back at 0
    at firing 750, without ever showing 150. *)
Theorem clock_loop_at_each_speed (n : nat) :
  ((n <= 150)%nat -> advanceSimTimes n 5 0 == inject_Z (Z.of_nat n)) /\
  advanceSimTimes 151 5 0 = 0 /\
  ((n <= 75)%nat -> advanceSimTimes n 10 0 == 2 * inject_Z (Z.of_nat n)) /\
  advanceSimTimes 76 10 0 = 0 /\
  ((0 < n <= 749)%nat ->
     0 < advanceSimTimes n 1 0 /\ advanceSimTimes n 1 0 < 150 /\
     Qabs (advanceSimTimes n 1 0 - inject_Z (Z.of_nat n) * (2 # 10))
       <= 1 # 549755813888) /\
  advanceSimTimes 750 1 0 = 0.
Proof.
  split; [| split; [| split; [| split; [| split]]]].
  - intros Hn.
    pose proof (checked_along_run
                  (fun p => Qeq_bool (snd p) (inject_Z (Z.of_nat (fst p))))
                  150 n 5 ltac:(vm_compute; reflexivity) Hn) as H.
    cbn [fst snd] in H. apply Qeq_bool_iff in H. exact H.
  - vm_compute. reflexivity.
  - intros Hn.
    pose proof (checked_along_run
                  (fun p => Qeq_bool (snd p) (2 * inject_Z (Z.of_nat (fst p))))
                  75 n 10 ltac:(vm_compute; reflexivity) Hn) as H.
    cbn [fst snd] in H. apply Qeq_bool_iff in H. exact H.
  - vm_compute. reflexivity.
  - intros [Hpos Hn].
    pose proof (checked_along_run
                  (fun p =>
                     Nat.eqb (fst p) 0 ||
                     (Qltb 0 (snd p) && Qltb (snd p) 150 &&
                      Qle_bool (Qabs (snd p - inject_Z (Z.of_nat (fst p)) * (2 # 10)))
                               (1 # 549755813888)))
                  749 n 1 ltac:(vm_compute; reflexivity) Hn) as H.
    cbn [fst snd] in H.
    apply orb_true_iff in H as [H | H]; [apply Nat.eqb_eq in H; lia |].
    apply andb_true_iff in H as [H H3]. apply andb_true_iff in H as [H1 H2].
    apply Qle_bool_iff in H3.
    destruct (Qltb_reflect 0 (advanceSimTimes n 1 0)); [| discriminate].
    destruct (Qltb_reflect (advanceSimTimes n 1 0) 150); [| discriminate].
    auto.
  - vm_compute. reflexivity.
Qed.

Lemma clock_loop_at_each_speed_witness :
  advanceSimTimes 150 5 0 == inject_Z (Z.of_nat 150) /\
  advanceSimTimes 749 1 0 < 150.
Proof.
  split.
  - apply (clock_loop_at_each_speed 150). lia.
  - apply (proj1 (proj2 (proj2 (proj2 (proj2 (clock_loop_at_each_speed 749)))))). lia.
Defined.

(** The state the component keeps valid. *)
Lemma simStep_invariant (st : SimState) (e : SimEvent) :
  (0 <= simTime st /\ simTime st <= 150 /\ In (speed st) speedButtons) ->
  0 <= simTime (simStep st e) /\ simTime (simStep st e) <= 150 /\
  In (speed (simStep st e)) speedButtons.
Proof.
  intros (Hlo & Hhi & Hsp). destruct e; simpl.
  - destruct (isPlaying st); simpl; [| auto].
    assert (Hpos : 0 < speed st).
    { simpl in Hsp. destruct Hsp as [<- | [<- | [<- | []]]]; reflexivity. }
    destruct (advanceSimTime_range (speed st) (simTime st) Hlo Hpos). auto.
  - auto.
  - split; [lra | split; [lra | exact Hsp]].
  - destruct (nth_error speedButtons button) as [s |] eqn:E; simpl; [| auto].
    split; [exact Hlo | split; [exact Hhi |]].
    apply nth_error_In in E. exact E.
Qed.

(** X5.  Whatever the user clicks and however often the interval
    fires, the simulated time stays within [0, 150] and the speed is one
    of the three offered (1, 5 or 10); and while the simulation is
    paused any number of firings leaves the state as it is. *)
Theorem simulation_state_invariant (events : list SimEvent) :
  (0 <= simTime (simRun initialSim events) /\
   simTime (simRun initialSim events) <= 150 /\
   In (speed (simRun initialSim events)) speedButtons) /\
  (forall st n,
     isPlaying st = false ->
     simRun st (repeat IntervalFires n) = st).
Proof.
  split.
  - unfold simRun.
    assert (Hinit : 0 <= simTime initialSim /\ simTime initialSim <= 150 /\
                    In (speed initialSim) speedButtons).
    { simpl. split; [lra | split; [lra | auto]]. }
    revert Hinit. generalize initialSim.
    induction events as [| e events IH]; intros st Hst; [exact Hst |].
    simpl. apply IH. apply simStep_invariant. exact Hst.
  - intros st n Hp. unfold simRun.
    induction n as [| n IH]; [reflexivity |].
    simpl. rewrite Hp. exact IH.
Qed.

Lemma simulation_state_invariant_witness :
  simRun (mkSimState 42 false 10) (repeat IntervalFires 3) = mkSimState 42 false 10.
Proof.
  apply (proj2 (simulation_state_invariant [])). reflexivity.
Defined.

(** ** The clock label *)

Lemma Qfloor_unique (x : Q) (z : Z) :
  inject_Z z <= x -> x < inject_Z z + 1 -> Qfloor x = z.
Proof.
  intros Hlo Hhi.
  assert (H1 : (z <= Qfloor x)%Z).
  { rewrite <- (Qfloor_Z z). apply Qfloor_resp_le. exact Hlo. }
  assert (H2 : (Qfloor x < z + 1)%Z).
  { rewrite Zlt_Qlt, inject_Z_plus.
    apply Qle_lt_trans with x; [apply Qfloor_le | exact Hhi]. }
  lia.
Qed.

Lemma string_length_app (a b : string) :
  String.length (a ++ b) = (String.length a + String.length b)%nat.
Proof. induction a as [| c a IH]; simpl; [reflexivity | rewrite IH; reflexivity]. Qed.

Lemma two_digit_minutes (r : Z) :
  (0 <= r < 60)%Z ->
  String.length (padStart 2 "0" (integerToString r)) = 2%nat.
Proof.
  intros Hr.
  assert (Hall : forallb
            (fun k => Nat.eqb (String.length (padStart 2 "0" (integerToString (Z.of_nat k)))) 2)
            (seq 0 60) = true) by (vm_compute; reflexivity).
  rewrite forallb_forall in Hall.
  specialize (Hall (Z.to_nat r)).
  rewrite Z2Nat.id in Hall by lia.
  apply Nat.eqb_eq, Hall, in_seq. lia.
Qed.

Lemma two_digit_hours (h : Z) :
  (12 <= h <= 14)%Z -> String.length (integerToString h) = 2%nat.
Proof.
  intros Hh.
  assert (Hc : h = 12%Z \/ h = 13%Z \/ h = 14%Z) by lia.
  destruct Hc as [-> | [-> | ->]]; reflexivity.
Qed.

(** An integer within one half below another integer is at most it. *)
Lemma integer_le_of_half (a b : Z) :
  inject_Z a - (1 # 2) <= inject_Z b -> (a <= b)%Z.
Proof.
  intros H. destruct (Z_lt_le_dec b a) as [Hlt | Hle]; [exfalso | exact Hle].
  assert (Hb : (b + 1 <= a)%Z) by lia.
  rewrite Zle_Qle, inject_Z_plus in Hb. change (inject_Z 1) with 1 in Hb. lra.
Qed.

Lemma integer_succ_le_of_lt (a b : Z) :
  inject_Z a < inject_Z b -> inject_Z a + 1 <= inject_Z b.
Proof.
  intros H. rewrite <- Zlt_Qlt in H.
  assert (Hb : (a + 1 <= b)%Z) by lia.
  rewrite Zle_Qle, inject_Z_plus in Hb. exact Hb.
Qed.

(** The sum [12 * 60 + simTime] as the source computes it, for a time
    within the horizon: a multiple of 2^-43 within 2^-44 of the exact
    sum, and not below any whole minute the exact sum has reached. *)
Lemma totalMinutes_rounded (t : Q) :
  0 <= t -> t <= 150 ->
  exists m : Z,
    jsAdd (jsMul 12 60) t == inject_Z m * (1 # 8796093022208) /\
    720 + t - (1 # 17592186044416) <= jsAdd (jsMul 12 60) t /\
    jsAdd (jsMul 12 60) t <= 720 + t + (1 # 17592186044416) /\
    inject_Z (720 + Qfloor t) <= jsAdd (jsMul 12 60) t /\
    jsAdd (jsMul 12 60) t <= 870.
Proof.
  intros Hlo Hhi.
  assert (Ha : jsMul 12 60 == 720) by (vm_compute; reflexivity).
  assert (H9 : 2 ^ 9 == 512) by reflexivity.
  assert (H10 : 2 ^ (9 + 1) == 1024) by reflexivity.
  assert (Hc : 2 ^ (9 - 52) == 1 # 8796093022208) by reflexivity.
  destruct (roundDouble_binade (jsMul 12 60 + t) 9) as (m & Hm & Hm1 & Hm2).
  { rewrite H9. lra. }
  { rewrite H10. lra. }
  { lia. }
  fold (jsAdd (jsMul 12 60) t) in Hm.
  rewrite Hc in Hm1, Hm2.
  assert (Htot : jsAdd (jsMul 12 60) t == inject_Z m * (1 # 8796093022208)).
  { rewrite Hm, Hc. reflexivity. }
  pose proof (Qfloor_le t) as Hfl.
  assert (Hz : (720 * 8796093022208 + Qfloor t * 8796093022208 <= m)%Z).
  { apply integer_le_of_half.
    rewrite inject_Z_plus, !inject_Z_mult.
    change (inject_Z 720) with 720.
    change (inject_Z 8796093022208) with 8796093022208. lra. }
  assert (Hz' : (m <= 870 * 8796093022208)%Z).
  { apply integer_le_of_half.
    change (inject_Z (870 * 8796093022208)) with (870 * 8796093022208). lra. }
  rewrite Zle_Qle in Hz, Hz'.
  rewrite inject_Z_plus, !inject_Z_mult in Hz.
  change (inject_Z 720) with 720 in Hz.
  change (inject_Z 8796093022208) with 8796093022208 in Hz.
  change (inject_Z (870 * 8796093022208)) with (870 * 8796093022208) in Hz'.
  exists m. rewrite inject_Z_plus. change (inject_Z 720) with 720.
  split; [exact Htot |]. rewrite Htot. repeat split; lra.
Qed.

(** X6.  For a simulated time within [0, 150] the clock label shows
    the whole minutes [n] of the sum [12 * 60 + simTime] as the source
    computes it: the hour [n / 60] (12 to 14), a colon and the minute
    [n mod 60] padded to two digits, five characters in all, the minute
    never reaching 60.  [n] is the whole minute [720 + floor(simTime)],
    or the next one when the time is within 2^-44 of it, since the sum
    is rounded before it is floored. *)
Theorem currentClock_shows_whole_minutes (t : Q) :
  0 <= t -> t <= 150 ->
  currentClock t =
    (integerToString (Qfloor (jsAdd (jsMul 12 60) t) / 60) ++ ":" ++
     padStart 2 "0" (integerToString (Qfloor (jsAdd (jsMul 12 60) t) mod 60)))%string /\
  String.length (currentClock t) = 5%nat /\
  (12 <= Qfloor (jsAdd (jsMul 12 60) t) / 60 <= 14)%Z /\
  (0 <= Qfloor (jsAdd (jsMul 12 60) t) mod 60 < 60)%Z /\
  (720 + Qfloor t <= Qfloor (jsAdd (jsMul 12 60) t) <= 720 + Qfloor t + 1)%Z /\
  (Qfloor (jsAdd (jsMul 12 60) t) = (720 + Qfloor t + 1)%Z ->
   inject_Z (Qfloor t) + 1 - (1 # 17592186044416) <= t).
Proof.
  intros Hlo Hhi.
  destruct (totalMinutes_rounded t Hlo Hhi) as (m1 & Htot & Hnear1 & Hnear2 & Hwhole & Htop).
  set (total := jsAdd (jsMul 12 60) t) in *.
  pose proof (Qfloor_le t) as Hfl. pose proof (Qlt_floor t) as Hfu.
  pose proof (Qfloor_le total) as Hnl. pose proof (Qlt_floor total) as Hnu.
  rewrite inject_Z_plus in Hfu, Hnu, Hwhole.
  change (inject_Z 1) with 1 in Hfu, Hnu. change (inject_Z 720) with 720 in Hwhole.
  assert (Hf0 : (0 <= Qfloor t)%Z).
  { change 0%Z with (Qfloor 0). apply Qfloor_resp_le. exact Hlo. }
  set (n := Qfloor total) in *.
  assert (Hn1 : (720 + Qfloor t <= n)%Z).
  { rewrite <- (Qfloor_Z (720 + Qfloor t)). apply Qfloor_resp_le.
    rewrite inject_Z_plus. change (inject_Z 720) with 720. exact Hwhole. }
  assert (Hn2 : (n <= 720 + Qfloor t + 1)%Z).
  { assert (H : (n < 720 + Qfloor t + 2)%Z); [| lia].
    rewrite Zlt_Qlt, !inject_Z_plus.
    change (inject_Z 720) with 720. change (inject_Z 2) with 2. lra. }
  assert (Hn3 : (n <= 870)%Z).
  { change 870%Z with (Qfloor 870). apply Qfloor_resp_le. exact Htop. }
  pose proof (Z.div_mod n 60 ltac:(lia)) as Hdm.
  pose proof (Z.mod_pos_bound n 60 ltac:(lia)) as Hr.
  assert (Hq : (12 <= n / 60 <= 14)%Z).
  { split; [apply Z.div_le_lower_bound; lia |].
    assert (n / 60 < 15)%Z by (apply Z.div_lt_upper_bound; lia). lia. }
  set (h := (n / 60)%Z) in *. set (r := (n mod 60)%Z) in *.
  assert (HnQ : inject_Z n == 60 * inject_Z h + inject_Z r).
  { rewrite Hdm, inject_Z_plus, inject_Z_mult. reflexivity. }
  assert (HrQ : 0 <= inject_Z r /\ inject_Z r <= 59).
  { split.
    - change 0 with (inject_Z 0). rewrite <- Zle_Qle. lia.
    - change 59 with (inject_Z 59). rewrite <- Zle_Qle. lia. }
  assert (HhQ : 12 <= inject_Z h /\ inject_Z h <= 14).
  { split.
    - change 12 with (inject_Z 12). rewrite <- Zle_Qle. lia.
    - change 14 with (inject_Z 14). rewrite <- Zle_Qle. lia. }
  (* the sum is a multiple of 2^-43 strictly below the next hour *)
  assert (Hstep : total + (1 # 8796093022208) <= 60 * inject_Z h + 60).
  { assert (Hlt : inject_Z m1 < inject_Z ((60 * h + 60) * 8796093022208)).
    { rewrite inject_Z_mult, inject_Z_plus, inject_Z_mult.
      change (inject_Z 60) with 60. change (inject_Z 8796093022208) with 8796093022208.
      lra. }
    apply integer_succ_le_of_lt in Hlt.
    rewrite inject_Z_mult, inject_Z_plus, inject_Z_mult in Hlt.
    change (inject_Z 60) with 60 in Hlt.
    change (inject_Z 8796093022208) with 8796093022208 in Hlt. lra. }
  (* the quotient by 60, rounded, has the same whole part *)
  assert (H3 : 2 ^ 3 == 8) by reflexivity.
  assert (H4 : 2 ^ (3 + 1) == 16) by reflexivity.
  assert (Hc2 : 2 ^ (3 - 52) == 1 # 562949953421312) by reflexivity.
  destruct (roundDouble_binade (total / 60) 3) as (m2 & Hm & Hm1 & Hm2).
  { rewrite H3. change (total / 60) with (total * (1 # 60)). lra. }
  { rewrite H4. change (total / 60) with (total * (1 # 60)). lra. }
  { lia. }
  fold (jsDiv total 60) in Hm.
  rewrite Hc2 in Hm1, Hm2.
  change (total / 60) with (total * (1 # 60)) in Hm1, Hm2.
  assert (Hquot : jsDiv total 60 == inject_Z m2 * (1 # 562949953421312)).
  { rewrite Hm, Hc2. reflexivity. }
  assert (Hm2lo : (h * 562949953421312 <= m2)%Z).
  { apply integer_le_of_half. rewrite inject_Z_mult.
    change (inject_Z 562949953421312) with 562949953421312. lra. }
  rewrite Zle_Qle, inject_Z_mult in Hm2lo.
  change (inject_Z 562949953421312) with 562949953421312 in Hm2lo.
  assert (Hh : Qfloor (jsDiv total 60) = h).
  { apply Qfloor_unique; rewrite Hquot; lra. }
  assert (Htr : Qtruncate (total / 60) = h).
  { unfold Qtruncate.
    assert (Hnn : Qle_bool 0 (total / 60) = true).
    { apply Qle_bool_iff. change (total / 60) with (total * (1 # 60)). lra. }
    rewrite Hnn.
    apply Qfloor_unique; change (total / 60) with (total * (1 # 60)); lra. }
  assert (Hmin : Qfloor (jsRemainder total 60) = r).
  { unfold jsRemainder. rewrite Htr. apply Qfloor_unique; lra. }
  assert (Hclock : currentClock t =
            (integerToString h ++ ":" ++ padStart 2 "0" (integerToString r))%string).
  { unfold currentClock. cbv zeta. fold total. rewrite Hh, Hmin. reflexivity. }
  split; [exact Hclock |].
  split.
  { rewrite Hclock, !string_length_app, two_digit_hours, two_digit_minutes by assumption.
    reflexivity. }
  split; [exact Hq |]. split; [exact Hr |]. split; [lia |].
  intros Hnext.
  assert (Hge : inject_Z (Qfloor t) + 721 <= total).
  { apply Qle_trans with (inject_Z n); [| exact Hnl].
    rewrite Hnext, !inject_Z_plus.
    change (inject_Z 720) with 720. change (inject_Z 1) with 1. lra. }
  lra.
Qed.

Lemma currentClock_shows_whole_minutes_witness :
  String.length (currentClock (9007199254740991 # 4503599627370496)) = 5%nat /\
  currentClock (9007199254740991 # 4503599627370496) = "12:02"%string.
Proof.
  destruct (currentClock_shows_whole_minutes (9007199254740991 # 4503599627370496))
    as (Hclock & Hlen & _).
  - discriminate.
  - discriminate.
  - split; [exact Hlen |]. rewrite Hclock. vm_compute. reflexivity.
Defined.

(** ** The track area *)

Lemma leftPercent_range (trainId : TrainId) (t : Q) :
  0 <= leftPercent (getPositionKm trainId t) /\
  leftPercent (getPositionKm trainId t) <= 100.
Proof.
  destruct (getPositionKm_range trainId t) as [Hlo Hhi].
  unfold leftPercent, TOTAL_DISTANCE in *.
  change (getPositionKm trainId t / 65) with (getPositionKm trainId t * (1 # 65)).
  lra.
Qed.

Lemma renderMarker_left (t : Q) (tr : TrainSimState) :
  marker_left (renderMarker t tr) == leftPercent (getPositionKm (id tr) t).
Proof.
  unfold renderMarker. cbn [marker_left].
  destruct (leftPercent_range (id tr) t). apply clamp_inside; assumption.
Qed.

(** X7.  At every simulated time the three track rows show each
    configured train exactly once, each in the row of its own track;
    a marker's [left] is the train's position as a percentage of the 65
    km and lies within [0, 100], so the final [clamp] never alters it. *)
Theorem every_train_drawn_once_on_its_track (t : Q) :
  List.map marker_key (concat (renderTracks t)) = List.map id trainsConfig /\
  (forall row m,
     In m (nth row (renderTracks t) []) ->
     exists tr, In tr trainsConfig /\ trackIndex tr = row /\ m = renderMarker t tr) /\
  (forall m,
     In m (concat (renderTracks t)) ->
     marker_left m == leftPercent (getPositionKm (marker_key m) t) /\
     0 <= marker_left m /\ marker_left m <= 100).
Proof.
  split; [reflexivity | split].
  - intros row m Hin.
    assert (Hrow : nth row (renderTracks t) [] = renderTrack t row).
    { destruct row as [| [| [| row]]]; try reflexivity.
      destruct row; reflexivity. }
    rewrite Hrow in Hin. unfold renderTrack in Hin.
    apply List.in_map_iff in Hin as (tr & <- & Hin).
    apply List.filter_In in Hin as [Hin Hidx].
    apply Nat.eqb_eq in Hidx. eauto.
  - intros m Hin.
    assert (Htr : exists tr, m = renderMarker t tr).
    { cbn in Hin.
      repeat match type of Hin with
             | _ \/ _ => destruct Hin as [<- | Hin]; [eexists; reflexivity |]
             end.
      contradiction. }
    destruct Htr as [tr ->].
    pose proof (renderMarker_left t tr) as Hleft.
    destruct (leftPercent_range (id tr) t) as [Hlo Hhi].
    change (marker_key (renderMarker t tr)) with (id tr).
    split; [exact Hleft | lra].
Qed.

Lemma every_train_drawn_once_on_its_track_witness :
  0 <= marker_left (renderMarker 30 (mkTrainSimState RAJDHANI "Rajdhani Express (+15m)" "bg-yellow-400" 1)) /\
  marker_left (renderMarker 30 (mkTrainSimState RAJDHANI "Rajdhani Express (+15m)" "bg-yellow-400" 1)) <= 100.
Proof.
  apply (proj2 (proj2 (every_train_drawn_once_on_its_track 30))).
  cbn. right. left. reflexivity.
Defined.

(** ** The two lines of a marker *)

Lemma jsSplit_nonempty (sep : ascii) (s : string) : jsSplit sep s <> [].
Proof.
  destruct s as [| c rest]; simpl; [discriminate |].
  destruct (Ascii.eqb c sep); [discriminate |].
  destruct (jsSplit sep rest); discriminate.
Qed.

Lemma jsJoin_cons (sep piece : string) (rest : list string) :
  rest <> [] ->
  jsJoin sep (piece :: rest) = (piece ++ sep ++ jsJoin sep rest)%string.
Proof. destruct rest; [contradiction | reflexivity]. Qed.

Lemma jsJoin_jsSplit (sep : ascii) (s : string) :
  jsJoin (String sep EmptyString) (jsSplit sep s) = s.
Proof.
  induction s as [| c rest IH]; [reflexivity |].
  cbn [jsSplit]. destruct (Ascii.eqb_spec c sep) as [-> | Hne].
  - rewrite jsJoin_cons by apply jsSplit_nonempty. rewrite IH. reflexivity.
  - destruct (jsSplit sep rest) as [| piece pieces] eqn:E.
    + exfalso. exact (jsSplit_nonempty sep rest E).
    + destruct pieces as [| p ps].
      * simpl in IH |- *. rewrite IH. reflexivity.
      * rewrite jsJoin_cons by discriminate.
        rewrite jsJoin_cons in IH by discriminate.
        simpl. rewrite <- IH. reflexivity.
Qed.

Lemma jsSplit_head_clean (sep : ascii) (s : string) :
  jsIncludes sep (nth 0 (jsSplit sep s) EmptyString) = false.
Proof.
  induction s as [| c rest IH]; [reflexivity |].
  cbn [jsSplit]. destruct (Ascii.eqb c sep) eqn:Ec; [reflexivity |].
  destruct (jsSplit sep rest) as [| piece pieces].
  - simpl. rewrite Ec. reflexivity.
  - simpl in IH |- *. rewrite Ec, IH. reflexivity.
Qed.

Lemma jsSplit_without_separator (sep : ascii) (s : string) :
  jsIncludes sep s = false -> jsSplit sep s = [s].
Proof.
  induction s as [| c rest IH]; [reflexivity |].
  simpl. destruct (Ascii.eqb c sep); simpl; [discriminate |].
  intros H. rewrite (IH H). reflexivity.
Qed.

Lemma jsSplit_with_separator (sep : ascii) (s : string) :
  jsIncludes sep s = true -> skipn 1 (jsSplit sep s) <> [].
Proof.
  induction s as [| c rest IH]; [discriminate |].
  simpl. destruct (Ascii.eqb c sep); simpl.
  - intros _. apply jsSplit_nonempty.
  - intros H. specialize (IH H).
    destruct (jsSplit sep rest) as [| piece pieces]; [exact IH | exact IH].
Qed.

(** X8.  For every name the bold line of a marker is the name up to
    its first space: it holds no space and is either the whole name (a
    name without space) or is followed in the name by a space and a
    rest.  The small line is that rest when the name holds a ['+'], and
    is empty otherwise, so that the rest of a name without ['+'] is not
    shown. *)
Theorem marker_lines_recombine (name : string) :
  jsIncludes " " (markerTitle name) = false /\
  (jsIncludes " " name = false ->
   markerTitle name = name /\ markerSubtitle name = EmptyString) /\
  (jsIncludes " " name = true ->
   exists rest,
     name = (markerTitle name ++ " " ++ rest)%string /\
     markerSubtitle name = if jsIncludes "+" name then rest else EmptyString).
Proof.
  unfold markerTitle, markerSubtitle.
  split; [apply jsSplit_head_clean | split].
  - intros Hsp. rewrite (jsSplit_without_separator " " name Hsp).
    split; [reflexivity |]. destruct (jsIncludes "+" name); reflexivity.
  - intros Hsp.
    pose proof (jsJoin_jsSplit " " name) as Hjoin.
    pose proof (jsSplit_with_separator " " name Hsp) as Hrest.
    destruct (jsSplit " " name) as [| title rest]; [contradiction |].
    rewrite jsJoin_cons in Hjoin by exact Hrest.
    exists (jsJoin " " rest). split; [symmetry; exact Hjoin |].
    destruct (jsIncludes "+" name); reflexivity.
Qed.

Lemma marker_lines_recombine_witness :
  markerTitle "MEMU" = "MEMU"%string /\
  exists rest,
    "MEMU Local (On Time)"%string =
      (markerTitle "MEMU Local (On Time)" ++ " " ++ rest)%string /\
    markerSubtitle "MEMU Local (On Time)" = EmptyString.
Proof.
  split.
  - apply (marker_lines_recombine "MEMU"). reflexivity.
  - destruct (proj2 (proj2 (marker_lines_recombine "MEMU Local (On Time)")))
      as (rest & Hname & Hsub).
    + reflexivity.
    + exists rest. split; [exact Hname | exact Hsub].
Defined.

Local Close Scope Q_scope.

(* ===================================================================== *)
(** * Further properties of the overlay *)
(* ===================================================================== *)

Lemma setData_lookup (m : MapState) (src : string) (features : list Feature) :
  sources (setData m src features) !! src = Some features.
Proof. unfold setData. simpl. apply lookup_insert_eq. Qed.

Lemma setData_setData (m : MapState) (src : string) (f1 f2 : list Feature) :
  setData (setData m src f1) src f2 = setData m src f2.
Proof. unfold setData. simpl. rewrite insert_insert_eq. reflexivity. Qed.

Section MarkerUpdates.

Variable numberToString : Q -> string.

(** X9.  A snapshot replaces the one before it: updating the markers
    with [a] and then with [b] leaves the surface exactly as updating
    with [b] alone does, so nothing of an earlier snapshot survives and
    repeating a snapshot changes nothing. *)
Theorem later_snapshot_replaces_earlier
    (mapRef : option MapState) (a b : list TrainData) :
  updateTrainMarkers numberToString (updateTrainMarkers numberToString mapRef a) b =
  updateTrainMarkers numberToString mapRef b.
Proof.
  destruct mapRef as [m |]; [| reflexivity].
  unfold updateTrainMarkers.
  destruct (sources m !! "trains-source") as [old |] eqn:E.
  - rewrite setData_lookup, setData_setData. reflexivity.
  - rewrite E. reflexivity.
Qed.

(** X10.  Updating the markers writes the data of ['trains-source'] and
    nothing else: the camera, every layer and every other source are as
    before; it never creates the source (a surface without it is left as
    it is), and without a map nothing happens. *)
Theorem updateTrainMarkers_writes_one_source
    (mapRef : option MapState) (trains : list TrainData) :
  (mapRef = None -> updateTrainMarkers numberToString mapRef trains = None) /\
  (forall m,
     mapRef = Some m -> sources m !! "trains-source" = None ->
     updateTrainMarkers numberToString mapRef trains = Some m) /\
  (forall m old,
     mapRef = Some m -> sources m !! "trains-source" = Some old ->
     exists m',
       updateTrainMarkers numberToString mapRef trains = Some m' /\
       sources m' !! "trains-source" = Some (trainFeatures numberToString trains) /\
       (forall other, other ≠ "trains-source" ->
          sources m' !! other = sources m !! other) /\
       layers m' = layers m /\ center m' = center m /\ zoom m' = zoom m).
Proof.
  split; [| split].
  - intros ->. reflexivity.
  - intros m -> Hsrc. unfold updateTrainMarkers. rewrite Hsrc. reflexivity.
  - intros m old -> Hsrc. unfold updateTrainMarkers. rewrite Hsrc.
    eexists. split; [reflexivity |].
    split; [apply setData_lookup |].
    split; [| auto].
    intros other Hne. unfold setData. simpl. apply lookup_insert_ne. congruence.
Qed.

(** X11.  A rendered marker always has coordinates: every feature of a
    snapshot is a point whose longitude and latitude are both truthy,
    so neither is missing, null, not-a-number or the number 0 (a train
    exactly on the equator or on the prime meridian is not drawn); and
    there are never more features than records. *)
Theorem rendered_points_have_truthy_coordinates
    (trains : list TrainData) (f : Feature) :
  In f (trainFeatures numberToString trains) ->
  (exists t,
     In t trains /\ f = toFeature numberToString t /\
     geometry f = Point (field t "current_lon") (field t "current_lat") /\
     toBoolean (field t "current_lon") = true /\
     toBoolean (field t "current_lat") = true /\
     (forall q, (q == 0)%Q ->
        field t "current_lon" ≠ VNum q /\ field t "current_lat" ≠ VNum q)) /\
  (length (trainFeatures numberToString trains) <= length trains)%nat.
Proof.
  intros Hin. split.
  - apply trainFeatures_In in Hin as (t & Hin & Hok & ->).
    exists t. split; [exact Hin | split; [reflexivity | split; [reflexivity |]]].
    unfold hasCoordinates, jsAnd in Hok.
    destruct (toBoolean (field t "current_lat")) eqn:Elat; [| congruence].
    split; [exact Hok | split; [reflexivity |]].
    intros q Hq.
    assert (Hz : toBoolean (VNum q) = false).
    { simpl. apply Qeq_bool_iff in Hq. rewrite Hq. reflexivity. }
    split; intros Heq; rewrite Heq in *; congruence.
  - unfold trainFeatures. rewrite List.length_map. apply List.filter_length_le.
Qed.

(** X12.  A feature carries its record: every field but [train_label]
    reads on the feature as on the record, [train_label] is always the
    text made of number and name (a [train_label] of the record itself
    is overwritten), and so the blink expression shows a marker dimmed
    only if the record's own status is exactly ['Held']. *)
Theorem feature_carries_its_record (t : TrainData) :
  (forall key, key ≠ "train_label" ->
     properties (toFeature numberToString t) !! key = t !! key) /\
  evalExpr (properties (toFeature numberToString t)) (EGet "train_label") =
    VStr (toString numberToString (field t "train_no") ++ " " ++
          toString numberToString (field t "train_name")) /\
  (forall v,
     evalExpr (properties (toFeature numberToString t)) (opacityExpr v) =
       if jsval_eqb (default VNull (t !! "status")) (VStr "Held")
       then VNum (if v then 1 else 2 # 10)%Q
       else VNum 1).
Proof.
  split; [| split].
  - intros key Hne. unfold toFeature. simpl. apply lookup_insert_ne. congruence.
  - unfold toFeature. simpl. rewrite lookup_insert_eq. reflexivity.
  - intros v. unfold opacityExpr, toFeature. cbn [evalExpr properties].
    rewrite lookup_insert_ne by discriminate.
    destruct (jsval_eqb (default VNull (t !! "status")) (VStr "Held")); reflexivity.
Qed.

(** X13.  Data updates and blink firings do not disturb each other:
    updating the markers before or after a firing of the blink timer
    gives the same surface, and an update leaves the opacity every
    feature is painted with as the last firing set it. *)
Theorem update_and_blink_commute (st : BlinkState) (trains : list TrainData) :
  mapRef (blinkTick
            (mkBlinkState (updateTrainMarkers numberToString (mapRef st) trains)
                          (visible st))) =
    updateTrainMarkers numberToString (mapRef (blinkTick st)) trains /\
  visible (blinkTick
             (mkBlinkState (updateTrainMarkers numberToString (mapRef st) trains)
                           (visible st))) =
    visible (blinkTick st) /\
  (forall m m' props,
     mapRef st = Some m ->
     updateTrainMarkers numberToString (mapRef st) trains = Some m' ->
     circleOpacity m' props = circleOpacity m props).
Proof.
  destruct st as [[m |] v]; cbn [mapRef visible].
  - assert (Hlayers : forall m',
              updateTrainMarkers numberToString (Some m) trains = Some m' ->
              layers m' = layers m).
    { intros m'. unfold updateTrainMarkers.
      destruct (sources m !! "trains-source"); intros [= <-]; reflexivity. }
    split; [| split].
    + unfold updateTrainMarkers, blinkTick, getLayer, setPaintProperty.
      cbn [mapRef visible].
      destruct (sources m !! "trains-source") as [old |] eqn:Es;
        cbn [mapRef visible setData layers sources];
        destruct (layers m !! "trains-layer") as [l |] eqn:El;
        cbn [mapRef visible setData layers sources center zoom];
        rewrite ?Es; reflexivity.
    + unfold updateTrainMarkers, blinkTick, getLayer.
      cbn [mapRef visible].
      destruct (sources m !! "trains-source");
        cbn [mapRef visible setData layers];
        destruct (layers m !! "trains-layer"); reflexivity.
    + intros m0 m' props [= <-] Hup.
      unfold circleOpacity, getLayer. rewrite (Hlayers m' Hup). reflexivity.
  - split; [reflexivity | split; [reflexivity |]].
    intros m m' props Hm. discriminate Hm.
Qed.

End MarkerUpdates.

Lemma updateTrainMarkers_writes_one_source_witness :
  exists m',
    updateTrainMarkers (fun _ => "0"%string) (Some (loadedMap "cg_db"))
      [locatedTrain; unlocatedTrain] = Some m' /\
    sources m' !! "tracks-source" = sources (loadedMap "cg_db") !! "tracks-source" /\
    layers m' = layers (loadedMap "cg_db").
Proof.
  destruct (proj2 (proj2 (updateTrainMarkers_writes_one_source
                            (fun _ => "0"%string) (Some (loadedMap "cg_db"))
                            [locatedTrain; unlocatedTrain]))
              (loadedMap "cg_db") [] eq_refl)
    as (m' & Hup & _ & Hother & Hlayers & _).
  - vm_compute. reflexivity.
  - exists m'. split; [exact Hup | split; [| exact Hlayers]].
    apply Hother. discriminate.
Defined.

Lemma rendered_points_have_truthy_coordinates_witness :
  (length (trainFeatures (fun _ => "0"%string) [locatedTrain; unlocatedTrain]) <= 2)%nat.
Proof.
  apply (rendered_points_have_truthy_coordinates (fun _ => "0"%string)
           [locatedTrain; unlocatedTrain]
           (toFeature (fun _ => "0"%string) locatedTrain)).
  vm_compute. left. reflexivity.
Defined.

Lemma feature_carries_its_record_witness :
  properties (toFeature (fun _ => "0"%string) unlocatedTrain) !! "status" =
  unlocatedTrain !! "status".
Proof.
  apply (proj1 (feature_carries_its_record (fun _ => "0"%string) unlocatedTrain)).
  discriminate.
Defined.

Lemma update_and_blink_commute_witness :
  circleOpacity
    (setData (loadedMap "cg_db") "trains-source"
       (trainFeatures (fun _ => "0"%string) [locatedTrain]))
    heldProps =
  circleOpacity (loadedMap "cg_db") heldProps.
Proof.
  apply (proj2 (proj2 (update_and_blink_commute (fun _ => "0"%string)
                         (mkBlinkState (Some (loadedMap "cg_db")) true)
                         [locatedTrain]))
           (loadedMap "cg_db")).
  - reflexivity.
  - vm_compute. reflexivity.
Defined.

(** ** The blink cycle *)

Lemma setPaintProperty_undo (m : MapState) (l : Layer) (layerId key : string) (e e' : Expr) :
  layers m !! layerId = Some l ->
  paint l !! key = Some e ->
  setPaintProperty (setPaintProperty m layerId key e') layerId key e = m.
Proof.
  intros Hl Hp. unfold setPaintProperty at 2. rewrite Hl.
  unfold setPaintProperty. cbn [layers center zoom sources].
  rewrite lookup_insert_eq. cbn [layer_type layer_source layout paint].
  rewrite !insert_insert_eq. rewrite (insert_id (paint l) key e Hp).
  destruct l as [lt ls lo lp]. cbn [layer_type layer_source layout paint].
  rewrite (insert_id (layers m) layerId _ Hl).
  destruct m. reflexivity.
Qed.

(** Two firings bring back a state that a firing has produced. *)
Lemma blinkTick_twice (st : BlinkState) (m : MapState) (l : Layer) :
  mapRef st = Some m ->
  layers m !! "trains-layer" = Some l ->
  paint l !! "circle-opacity" = Some (opacityExpr (negb (visible st))) ->
  blinkTick (blinkTick st) = st.
Proof.
  intros Hm Hl Hp.
  rewrite (blinkTick_fires st m l Hm Hl).
  erewrite blinkTick_fires;
    [| reflexivity | cbn [mapRef]; apply setPaintProperty_layer; exact Hl].
  cbn [visible]. rewrite negb_involutive.
  rewrite (setPaintProperty_undo m l _ _ _ _ Hl Hp).
  destruct st as [r v]. cbn [mapRef visible] in *. rewrite Hm. reflexivity.
Qed.

(** X14.  With the layer present the blink is a cycle of two states:
    once the timer has fired, every two further firings bring the whole
    surface and the flag back to what they were, so the timer never
    accumulates anything on the surface. *)
Theorem blink_cycle_has_two_states (st : BlinkState) (n : nat) :
  ready st ->
  blinkTicks (S n + 2) st = blinkTicks (S n) st.
Proof.
  intros Hr.
  replace (S n + 2)%nat with (S (S (S n))) by lia.
  rewrite (blinkTicks_succ (S (S n))), (blinkTicks_succ (S n)).
  rewrite (blinkTicks_succ n).
  destruct (blinkTicks_ready n st Hr) as [(m & l & Hm & Hl) _].
  set (s := blinkTicks n st) in *.
  rewrite (blinkTick_fires s m l Hm Hl).
  eapply blinkTick_twice.
  - reflexivity.
  - apply setPaintProperty_layer. exact Hl.
  - cbn [paint visible]. rewrite negb_involutive. apply lookup_insert_eq.
Qed.

Lemma blink_cycle_has_two_states_witness :
  blinkTicks (S 0 + 2) (mkBlinkState (Some (loadedMap "india_db")) true) =
  blinkTicks (S 0) (mkBlinkState (Some (loadedMap "india_db")) true).
Proof.
  apply (blink_cycle_has_two_states (mkBlinkState (Some (loadedMap "india_db")) true) 0).
  exists (loadedMap "india_db"), trainsLayer. split; [reflexivity |].
  vm_compute. reflexivity.
Defined.

(** ** The camera *)

(** X15.  Moving the camera moves nothing else: the data-base effect
    leaves sources and layers as they are and ends at the camera a
    fresh map of that data base starts with (India for any data base
    other than ['cg_db']); of two switches the later one decides; the
    India and Chhattisgarh buttons end where the effect ends for
    ['india_db'] and ['cg_db']; and without a map nothing happens. *)
Theorem camera_moves_only_the_camera (mapRef : option MapState) (db db' : string) :
  (forall m,
     mapRef = Some m ->
     exists m',
       flyToActiveDB mapRef db = Some m' /\
       center m' = center (newMap db) /\ zoom m' = zoom (newMap db) /\
       sources m' = sources m /\ layers m' = layers m) /\
  (db ≠ "cg_db" -> flyToActiveDB mapRef db = navigateToIndia mapRef) /\
  flyToActiveDB mapRef "cg_db" = navigateToCG mapRef /\
  flyToActiveDB (flyToActiveDB mapRef db) db' = flyToActiveDB mapRef db' /\
  (forall m,
     mapRef = Some m ->
     exists m',
       navigateToBSPSection mapRef = Some m' /\
       center m' = BSP_AKALTARA_CENTER /\ zoom m' = 12%Q /\
       sources m' = sources m /\ layers m' = layers m) /\
  (mapRef = None ->
   flyToActiveDB mapRef db = None /\ navigateToBSPSection mapRef = None).
Proof.
  split; [| split; [| split; [| split; [| split]]]].
  - intros m ->. eexists. split; [reflexivity |]. auto.
  - intros Hne. destruct mapRef as [m |]; [| reflexivity].
    unfold flyToActiveDB, navigateToIndia.
    destruct (String.eqb_spec db "cg_db"); [contradiction | reflexivity].
  - destruct mapRef; reflexivity.
  - destruct mapRef; reflexivity.
  - intros m ->. eexists. split; [reflexivity |]. auto.
  - intros ->. split; reflexivity.
Qed.

Lemma camera_moves_only_the_camera_witness :
  flyToActiveDB (Some (loadedMap "cg_db")) "india_db" =
  navigateToIndia (Some (loadedMap "cg_db")).
Proof.
  apply (camera_moves_only_the_camera (Some (loadedMap "cg_db")) "india_db" "cg_db").
  discriminate.
Defined.

(** ** The life of the map *)

(** X16.  The map is created once: running the initialisation again
    keeps the map there is (with the camera of the first data base);
    the load handler turns a new map into the surface with two empty
    sources and three layers; a snapshot or a blink firing that comes
    before the load leaves the new map untouched, so that snapshot is
    not on the surface after the load; and after the cleanup neither
    the marker update nor the camera effect does anything. *)
Theorem map_created_once_and_guarded
    (numberToString : Q -> string) (mapRef : option MapState)
    (mapContainer : bool) (db db' : string) (trains : list TrainData) :
  initializeMap (initializeMap mapRef mapContainer db) mapContainer db' =
    initializeMap mapRef mapContainer db /\
  onLoad (newMap db) = loadedMap db /\
  updateTrainMarkers numberToString (Some (newMap db)) trains = Some (newMap db) /\
  blinkTick (mkBlinkState (Some (newMap db)) true) =
    mkBlinkState (Some (newMap db)) true /\
  (forall m,
     updateTrainMarkers numberToString (Some (newMap db)) trains = Some m ->
     sources (onLoad m) !! "trains-source" = Some []) /\
  updateTrainMarkers numberToString (cleanupMap mapRef) trains = None /\
  flyToActiveDB (cleanupMap mapRef) db = None.
Proof.
  split; [| split; [| split; [| split; [| split; [| split]]]]].
  - destruct mapRef as [m |]; [reflexivity |].
    destruct mapContainer; reflexivity.
  - reflexivity.
  - reflexivity.
  - reflexivity.
  - intros m [= <-]. unfold onLoad, addLayer, addSource. cbn [sources].
    apply lookup_insert_eq.
  - reflexivity.
  - reflexivity.
Qed.

Lemma map_created_once_and_guarded_witness :
  sources (onLoad (newMap "cg_db")) !! "trains-source" = Some [].
Proof.
  apply (proj1 (proj2 (proj2 (proj2 (proj2
           (map_created_once_and_guarded (fun _ => "0"%string) None true
              "cg_db" "india_db" [locatedTrain])))))).
  reflexivity.
Defined.

(** ** The track section *)

(** X17.  Every line of the loaded track section has a truthy [track]:
    a segment whose track is missing, null or 0 is put on track 1 and
    drawn in the colour of track 1; an answer without features empties
    the section; and loading the section touches neither the train
    markers nor any layer. *)
Theorem section_tracks_default_to_one
    (m : MapState) (features : option (list SectionFeature)) (f : SectionFeature) :
  (exists v,
     properties (sectionToFeature f) !! "track" = Some v /\ toBoolean v = true) /\
  (toBoolean (section_track f) = false ->
   properties (sectionToFeature f) !! "track" = Some (VNum 1) /\
   forall db,
     paintOf (onLoad (newMap db)) "tracks-layer" "line-color"
       (properties (sectionToFeature f)) = Some (VStr "#4F46E5")) /\
  (toBoolean (section_track f) = true ->
   properties (sectionToFeature f) !! "track" = Some (section_track f)) /\
  sources (loadSection m None) !! "tracks-source" = Some [] /\
  sources (loadSection m features) !! "trains-source" = sources m !! "trains-source" /\
  layers (loadSection m features) = layers m.
Proof.
  unfold sectionToFeature, jsOr. cbn [properties].
  split; [| split; [| split; [| split; [| split]]]].
  - eexists. split; [apply lookup_singleton_eq |].
    destruct (toBoolean (section_track f)) eqn:E; [exact E | reflexivity].
  - intros Hf. rewrite Hf. split; [apply lookup_singleton_eq |].
    intros db. vm_compute. reflexivity.
  - intros Ht. rewrite Ht. apply lookup_singleton_eq.
  - unfold loadSection. apply setData_lookup.
  - unfold loadSection, setData. cbn [sources]. apply lookup_insert_ne. discriminate.
  - reflexivity.
Qed.

Lemma section_tracks_default_to_one_witness :
  properties (sectionToFeature (mkSectionFeature [] VUndefined)) !! "track" =
  Some (VNum 1).
Proof.
  apply (proj1 (proj2 (section_tracks_default_to_one
                  (loadedMap "cg_db") None (mkSectionFeature [] VUndefined)))).
  reflexivity.
Defined.
